(** * TenderScrape: the job dispatcher and its record utilities

    A shallow embedding of [tender_utils.py] (record classifier and
    delivery ledger) and [job_dispatcher.py] (dispatch engine, execution
    lock, subscription store), with the properties of the dispatch and
    deduplication engine stated and proved over it.

    Conventions of the embedding.
    - A tender record is a JSON object: an association list from keys to
      [value]s.  JSON numbers are integers here; fractional numbers are
      left out.
    - Python exceptions are results: a computation yields [Return a] or
      [Raise e].  State is passed explicitly, and a raised exception keeps
      the state reached so far.
    - Strings are byte strings; [lower] acts on ASCII letters.
    - Library calls whose result depends on the host (the clock, the cron
      matcher, the HTTP sink, the date parsers) are fields of an
      environment record, and so is the result of the one call whose
      name [job_dispatcher.py] does not bind, [load_app_config()].
    - The entries of a readable ledger are well-formed; the ledger file,
      subscription files, seen-set files and the cache may be missing or
      unreadable.
    - The failures of file operations that the code catches (a status
      file that cannot be read or written, a seen-set, history or ledger
      write that fails, the repair of a subscription file) are decided
      by the environment. *)

From Stdlib Require Import ZArith String Ascii List Bool Lia.
From Stdlib Require Import Sorting.Permutation.
From stdpp Require Import gmap strings list fin_maps pretty.

#[local] Set Warnings "-register-all,-clear-no-such-hyp".
#[local] Open Scope string_scope.
#[local] Open Scope Z_scope.

(** ** Exceptions and results *)

Inductive exn : Type :=
  | NameError (msg : string)
  | AttributeError (msg : string)
  | TypeError (msg : string)
  | ValueError (msg : string)
  | KeyError (msg : string)
  | OSError (msg : string).

(** [str(e)] *)
Definition str_exn (e : exn) : string :=
  match e with
  | NameError m | AttributeError m | TypeError m
  | ValueError m | KeyError m | OSError m => m
  end.

Inductive Exc (A : Type) : Type :=
  | Return (a : A)
  | Raise (e : exn).
Arguments Return {A} a.
Arguments Raise {A} e.

Definition bindE {A B} (c : Exc A) (k : A -> Exc B) : Exc B :=
  match c with
  | Return a => k a
  | Raise e => Raise e
  end.

Notation "'let*' x ':=' c 'in' k" := (bindE c (fun x => k))
  (at level 10, x name, c at level 100, k at level 200).

(** ** Python values *)

Inductive value : Type :=
  | VNone
  | VBool (b : bool)
  | VInt (z : Z)
  | VStr (s : string)
  | VList (l : list value)
  | VDict (d : list (string * value)).

(** A JSON object, as [json.load] returns it. *)
Abbreviation record := (list (string * value)).

(** [d.get(k)], [None] when the key is absent. *)
Fixpoint dict_get (d : record) (k : string) : option value :=
  match d with
  | [] => None
  | (k', v) :: d' => if String.eqb k k' then Some v else dict_get d' k
  end.

(** [k in d] *)
Definition dict_has (d : record) (k : string) : bool :=
  match dict_get d k with Some _ => true | None => false end.

(** [d.get(k, default)] *)
Definition dict_get_default (d : record) (k : string) (default : value) : value :=
  match dict_get d k with Some v => v | None => default end.

(** Truth value of an object: [bool(v)]. *)
Definition truthy (v : value) : bool :=
  match v with
  | VNone => false
  | VBool b => b
  | VInt z => negb (z =? 0)
  | VStr s => negb (String.eqb s "")
  | VList l => match l with [] => false | _ => true end
  | VDict d => match d with [] => false | _ => true end
  end.

(** *** [str] and [repr] *)

Definition hex_digit (n : N) : ascii :=
  ascii_of_N (if (n <? 10)%N then 48 + n else 87 + n)%N.

Definition hex_escape (c : ascii) : string :=
  let n := N_of_ascii c in
  String "\" (String "x" (String (hex_digit (n / 16)) (String (hex_digit (n mod 16)) ""))).

Fixpoint has_char (c : ascii) (s : string) : bool :=
  match s with
  | EmptyString => false
  | String c' s' => Ascii.eqb c c' || has_char c s'
  end.

Definition squote : ascii := "'"%char.
Definition dquote : ascii := ascii_of_N 34.
Definition backslash : ascii := "\"%char.

(** The quote [repr] picks for a string. *)
Definition repr_quote (s : string) : ascii :=
  if has_char squote s && negb (has_char dquote s) then dquote else squote.

Fixpoint repr_body (q : ascii) (s : string) : string :=
  match s with
  | EmptyString => EmptyString
  | String c s' =>
      let n := N_of_ascii c in
      (if Ascii.eqb c q || Ascii.eqb c backslash then String backslash (String c "")
       else if (n =? 9)%N then "\t"
       else if (n =? 10)%N then "\n"
       else if (n =? 13)%N then "\r"
       else if (n <? 32)%N || (n =? 127)%N then hex_escape c
       else String c "") ++ repr_body q s'
  end.

Definition repr_str (s : string) : string :=
  let q := repr_quote s in String q (repr_body q s ++ String q "").

Fixpoint join (sep : string) (l : list string) : string :=
  match l with
  | [] => ""
  | [x] => x
  | x :: l' => x ++ sep ++ join sep l'
  end.

Fixpoint py_repr (v : value) : string :=
  match v with
  | VNone => "None"
  | VBool true => "True"
  | VBool false => "False"
  | VInt z => pretty z
  | VStr s => repr_str s
  | VList l => "[" ++ join ", " (List.map py_repr l) ++ "]"
  | VDict d =>
      "{" ++ join ", "
               (List.map (fun kv => match kv with
                                    | (k, v') => repr_str k ++ ": " ++ py_repr v'
                                    end) d) ++ "}"
  end.

(** [str(v)]: a string is itself, anything else prints as its [repr]. *)
Definition py_str (v : value) : string :=
  match v with
  | VStr s => s
  | _ => py_repr v
  end.

(** *** String operations *)

Definition lower_char (c : ascii) : ascii :=
  let n := N_of_ascii c in
  if (65 <=? n)%N && (n <=? 90)%N then ascii_of_N (n + 32) else c.

Fixpoint lower (s : string) : string :=
  match s with
  | EmptyString => EmptyString
  | String c s' => String (lower_char c) (lower s')
  end.

(** [sub in s] for two strings. *)
Fixpoint contains (sub s : string) : bool :=
  String.prefix sub s ||
  match s with
  | EmptyString => false
  | String _ s' => contains sub s'
  end.

(** Equality of two values as [==] decides it, restricted to what the
    code needs: comparing a string with an arbitrary value. *)
Definition eq_str (s : string) (v : value) : bool :=
  match v with VStr s' => String.eqb s s' | _ => false end.

(** [s in v] for a string [s]: substring of a string, member of a list,
    key of a dict; any other right operand is not iterable. *)
Definition str_in (s : string) (v : value) : Exc bool :=
  match v with
  | VStr t => Return (contains s t)
  | VList l => Return (existsb (eq_str s) l)
  | VDict d => Return (dict_has d s)
  | VNone => Raise (TypeError "argument of type 'NoneType' is not iterable")
  | VBool _ => Raise (TypeError "argument of type 'bool' is not iterable")
  | VInt _ => Raise (TypeError "argument of type 'int' is not iterable")
  end.

(** [sorted] on strings: ascending code-point order. *)
Fixpoint insert_sorted (x : string) (l : list string) : list string :=
  match l with
  | [] => [x]
  | y :: l' => if String.leb x y then x :: l else y :: insert_sorted x l'
  end.

Definition sorted (l : list string) : list string :=
  List.fold_right insert_sorted [] l.

(** * tender_utils.py *)

(** ** Record classifier *)

(** [get_tender_category(tender)].  The function only tests key presence
    and type, so it returns whatever the selected field holds. *)
Definition get_tender_category (tender : record) : value :=
  match dict_get tender "procurement_category" with
  | Some (VDict pc) => dict_get_default pc "title" (VStr "Unknown")
  | _ =>
      match dict_get tender "category_name" with
      | Some v => v
      | None =>
          match dict_get tender "category" with
          | Some v => v
          | None =>
              match dict_get tender "procurement_category_id" with
              | Some v => VStr ("Category #" ++ py_str v)
              | None => VStr "Unknown"
              end
          end
      end
  end.

(** ** Dates *)

(** A [datetime.datetime]: the civil fields and, for an aware value, the
    UTC offset in seconds. *)
Record datetime : Type := mk_datetime {
  dt_year : Z; dt_month : Z; dt_day : Z;
  dt_hour : Z; dt_minute : Z; dt_second : Z; dt_microsecond : Z;
  dt_utcoffset : option Z
}.

Definition is_leap (y : Z) : bool :=
  (y mod 4 =? 0) && (negb (y mod 100 =? 0) || (y mod 400 =? 0)).

Definition days_in_month (y m : Z) : Z :=
  if m =? 2 then (if is_leap y then 29 else 28)
  else if (m =? 4) || (m =? 6) || (m =? 9) || (m =? 11) then 30 else 31.

Definition days_before_year (y : Z) : Z :=
  let y1 := y - 1 in y1 * 365 + y1 / 4 - y1 / 100 + y1 / 400.

Fixpoint days_before_month_aux (y : Z) (n : nat) : Z :=
  match n with
  | O => 0
  | S n' => days_before_month_aux y n' + days_in_month y (Z.of_nat n)
  end.

Definition days_before_month (y m : Z) : Z :=
  days_before_month_aux y (Z.to_nat (m - 1)).

(** Proleptic Gregorian ordinal, 1 for 0001-01-01. *)
Definition ymd2ord (y m d : Z) : Z :=
  days_before_year y + days_before_month y m + d.

(** Microseconds since the epoch of the civil fields read as UTC. *)
Definition civil_micros (t : datetime) : Z :=
  (((ymd2ord (dt_year t) (dt_month t) (dt_day t) * 24 + dt_hour t) * 60
    + dt_minute t) * 60 + dt_second t) * 1000000 + dt_microsecond t.

Definition utc_micros (t : datetime) (off : Z) : Z :=
  civil_micros t - off * 1000000.

Definition civil_fields (t : datetime) : list Z :=
  [dt_year t; dt_month t; dt_day t; dt_hour t; dt_minute t; dt_second t;
   dt_microsecond t].

(** Lexicographic [a >= b] on field lists of equal length. *)
Fixpoint lex_ge (a b : list Z) : bool :=
  match a, b with
  | x :: a', y :: b' => (y <? x) || ((x =? y) && lex_ge a' b')
  | _, _ => true
  end.

(** [a >= b] on datetimes: two naive values compare by their fields, two
    aware values by their instants, and a naive value does not compare
    with an aware one. *)
Definition datetime_ge (a b : datetime) : Exc bool :=
  match dt_utcoffset a, dt_utcoffset b with
  | None, None => Return (lex_ge (civil_fields a) (civil_fields b))
  | Some oa, Some ob => Return (utc_micros b ob <=? utc_micros a oa)
  | _, _ => Raise (TypeError "can't compare offset-naive and offset-aware datetimes")
  end.

(** [s.replace("Z", "+00:00")] *)
Fixpoint replace_Z (s : string) : string :=
  match s with
  | EmptyString => EmptyString
  | String c s' =>
      if Ascii.eqb c "Z"%char then "+00:00" ++ replace_Z s'
      else String c (replace_Z s')
  end.

Section RecordClassifier.

(** [datetime.fromisoformat] and [datetime.strptime] on a string
    argument: [None] stands for the [ValueError] of a failed parse. *)
Variable fromisoformat : string -> option datetime.
Variable strptime : string -> string -> option datetime.

Definition parse_or_ValueError (r : option datetime) : Exc datetime :=
  match r with
  | Some t => Return t
  | None => Raise (ValueError "Invalid isoformat string or format mismatch")
  end.

(** The parse of lines 59-64, for a [close_at] that is a string. *)
Definition parse_close_at (s : string) : option datetime :=
  if contains "T" s then fromisoformat (replace_Z s)
  else if contains " " s then strptime s "%Y-%m-%d %H:%M:%S"
  else strptime s "%Y-%m-%d".

(** The body of the [try] block of [is_tender_active], lines 59-66. *)
Definition is_tender_active_try (close_at_str : value) (reference_date : datetime)
  : Exc bool :=
  let* has_T := str_in "T" close_at_str in
  let* close_date :=
    (if has_T then
       match close_at_str with
       | VStr s => parse_or_ValueError (fromisoformat (replace_Z s))
       | VList _ => Raise (AttributeError "'list' object has no attribute 'replace'")
       | _ => Raise (AttributeError "'dict' object has no attribute 'replace'")
       end
     else
       let* has_space := str_in " " close_at_str in
       match close_at_str with
       | VStr s =>
           if has_space then parse_or_ValueError (strptime s "%Y-%m-%d %H:%M:%S")
           else parse_or_ValueError (strptime s "%Y-%m-%d")
       | _ => Raise (TypeError "strptime() argument 1 must be str")
       end) in
  datetime_ge close_date reference_date.

(** [is_tender_active(tender, reference_date)]; the caller passes the
    clock reading when the argument is left to its default.  [ValueError]
    and [TypeError] of the [try] block mean "active"; any other exception
    propagates. *)
Definition is_tender_active (tender : record) (reference_date : datetime) : Exc bool :=
  let close_at_str := dict_get_default tender "close_at" (VStr "") in
  if negb (truthy close_at_str) then Return true
  else
    match is_tender_active_try close_at_str reference_date with
    | Return b => Return b
    | Raise (ValueError _) | Raise (TypeError _) => Return true
    | Raise e => Raise e
    end.

End RecordClassifier.

(** *** Fixed-width date parsers

    Executable instances of the two parsers for zero-padded, fixed-width
    input: [YYYY-MM-DD], [YYYY-MM-DD HH:MM:SS] and
    [YYYY-MM-DDTHH:MM:SS] with an optional [+HH:MM] or [-HH:MM] offset.
    CPython accepts these texts with the same result; it accepts further
    variants that the instances below reject.  They serve to run the
    classifier on concrete records. *)

Definition digit_val (c : ascii) : option Z :=
  let n := N_of_ascii c in
  if (48 <=? n)%N && (n <=? 57)%N then Some (Z.of_N (n - 48)) else None.

Fixpoint take_digits (n : nat) (acc : Z) (s : string) : option (Z * string) :=
  match n with
  | O => Some (acc, s)
  | S n' =>
      match s with
      | String c s' =>
          match digit_val c with
          | Some d => take_digits n' (acc * 10 + d) s'
          | None => None
          end
      | EmptyString => None
      end
  end.

Definition expect_char (c : ascii) (s : string) : option string :=
  match s with
  | String c' s' => if Ascii.eqb c c' then Some s' else None
  | EmptyString => None
  end.

Definition parse_date_fixed (s : string) : option (Z * Z * Z * string) :=
  match take_digits 4 0 s with
  | Some (y, s1) =>
      match expect_char "-" s1 with
      | Some s2 =>
          match take_digits 2 0 s2 with
          | Some (m, s3) =>
              match expect_char "-" s3 with
              | Some s4 =>
                  match take_digits 2 0 s4 with
                  | Some (d, s5) =>
                      if (1 <=? y) && (1 <=? m) && (m <=? 12) && (1 <=? d)
                         && (d <=? days_in_month y m)
                      then Some (y, m, d, s5) else None
                  | None => None
                  end
              | None => None
              end
          | None => None
          end
      | None => None
      end
  | None => None
  end.

(** [HH:MM] followed by the rest. *)
Definition parse_hm_fixed (s : string) : option (Z * Z * string) :=
  match take_digits 2 0 s with
  | Some (h, s1) =>
      match expect_char ":" s1 with
      | Some s2 =>
          match take_digits 2 0 s2 with
          | Some (mi, s3) =>
              if (h <=? 23) && (mi <=? 59) then Some (h, mi, s3) else None
          | None => None
          end
      | None => None
      end
  | None => None
  end.

Definition parse_time_fixed (s : string) : option (Z * Z * Z * string) :=
  match parse_hm_fixed s with
  | Some (h, mi, s1) =>
      match expect_char ":" s1 with
      | Some s2 =>
          match take_digits 2 0 s2 with
          | Some (sec, s3) => if sec <=? 59 then Some (h, mi, sec, s3) else None
          | None => None
          end
      | None => None
      end
  | None => None
  end.

(** An optional UTC offset closing the text. *)
Definition parse_offset_fixed (s : string) : option (option Z) :=
  match s with
  | EmptyString => Some None
  | String c s' =>
      let sign := if Ascii.eqb c "+" then Some 1
                  else if Ascii.eqb c "-" then Some (-1) else None in
      match sign, parse_hm_fixed s' with
      | Some sg, Some (h, mi, EmptyString) => Some (Some (sg * (h * 3600 + mi * 60)))
      | _, _ => None
      end
  end.

Definition fromisoformat_fixed (s : string) : option datetime :=
  match parse_date_fixed s with
  | Some (y, m, d, EmptyString) => Some (mk_datetime y m d 0 0 0 0 None)
  | Some (y, m, d, String _ s1) =>
      match parse_time_fixed s1 with
      | Some (h, mi, sec, s2) =>
          match parse_offset_fixed s2 with
          | Some off => Some (mk_datetime y m d h mi sec 0 off)
          | None => None
          end
      | None => None
      end
  | None => None
  end.

Definition strptime_fixed (s fmt : string) : option datetime :=
  if String.eqb fmt "%Y-%m-%d %H:%M:%S" then
    match parse_date_fixed s with
    | Some (y, m, d, String c s1) =>
        if Ascii.eqb c " " then
          match parse_time_fixed s1 with
          | Some (h, mi, sec, EmptyString) => Some (mk_datetime y m d h mi sec 0 None)
          | _ => None
          end
        else None
    | _ => None
    end
  else if String.eqb fmt "%Y-%m-%d" then
    match parse_date_fixed s with
    | Some (y, m, d, EmptyString) => Some (mk_datetime y m d 0 0 0 0 None)
    | _ => None
    end
  else None.

(** ** Delivery ledger: [EmailTracker] *)

(** One entry of [data["recipients"]]. *)
Record recipient_entry : Type := mk_entry {
  first_seen : string;
  sent_tenders : list string;
  last_sent : option string
}.

(** [EmailTracker.data] *)
Record tracker_data : Type := mk_tracker {
  recipients : gmap string recipient_entry;
  last_updated : option string
}.

(** The data of a tracker with no file, or with a file that does not parse. *)
Definition empty_tracker : tracker_data := mk_tracker ∅ None.

(** [get_sent_tenders(email)] *)
Definition get_sent_tenders (tr : tracker_data) (email : string) : gset string :=
  match recipients tr !! email with
  | Some e => list_to_set (sent_tenders e)
  | None => ∅
  end.

(** [is_new_recipient(email)] *)
Definition is_new_recipient (tr : tracker_data) (email : string) : bool :=
  match recipients tr !! email with
  | Some _ => false
  | None => true
  end.

(** [mark_tenders_sent(email, tender_ids)], [now] being the clock reading
    in ISO form. *)
Definition mark_tenders_sent (now : string) (tr : tracker_data) (email : string)
    (tender_ids : list value) : tracker_data :=
  let e := match recipients tr !! email with
           | Some e => e
           | None => mk_entry now [] None
           end in
  let existing : gset string :=
    list_to_set (sent_tenders e) ∪ list_to_set (py_str <$> tender_ids) in
  mk_tracker
    (<[email := mk_entry (first_seen e) (sorted (elements existing)) (Some now)]>
       (recipients tr))
    (last_updated tr).

(** A run of calls, oldest first. *)
Definition mark_calls (now : string) (tr : tracker_data)
    (calls : list (string * list value)) : tracker_data :=
  fold_left (fun t c => mark_tenders_sent now t (fst c) (snd c)) calls tr.

(** * job_dispatcher.py *)

(** ** Persisted forms *)

(** A subscription ("job") as [json.loads] returns it from
    [configs/<id>.json]; an absent key is [None]. *)
Record job : Type := mk_job {
  job_id : option string;
  job_classes : option (list string);
  job_recipients : option (list string);
  job_schedule : option string
}.

(** Content of a file under [configs/]: [CfgCorrupt] is any text on which
    [json.loads] or the validation raises. *)
Inductive cfg_content : Type :=
  | CfgCorrupt
  | CfgJob (j : job).

(** Content of a file under [seen/]. *)
Inductive seen_content : Type :=
  | SeenCorrupt
  | SeenIds (ids : list string).

(** Content of [email_tracking.json]. *)
Inductive tracking_content : Type :=
  | TrackingMissing
  | TrackingCorrupt
  | TrackingData (tr : tracker_data).

(** [cache/tender_data.json] as the harvester leaves it. *)
Record cache_data : Type := mk_cache {
  cache_timestamp : option string;
  cache_records : option (list record)
}.

Inductive cache_content : Type :=
  | CacheMissing
  | CacheCorrupt
  | CacheData (c : cache_data).

(** One line of [execution_history.jsonl]. *)
Record history_entry : Type := mk_history {
  h_timestamp : string;
  h_job_id : string;
  h_success : bool;
  h_tenders_found : Z;
  h_duration : value;
  h_error : option string
}.

(** The payload posted to the notification sink. *)
Record payload : Type := mk_payload {
  p_from : string;
  p_to : list string;
  p_subject : string;
  p_text : string
}.

(** [load_email_config()] *)
Record email_config : Type := mk_email_config {
  api_key : string;
  from_email : string;
  subject_prefix : string
}.

(** ** The host

    What a run reads and does not write. *)
Record env : Type := mk_env {
  (** what the call [load_app_config()] yields in the name space of
      [job_dispatcher.py] *)
  env_load_app_config : Exc record;
  (** [dt.datetime.now()], read once per run *)
  env_now : datetime;
  (** [os.getpid()] *)
  env_pid : Z;
  (** a measured duration, [round(time.time() - start_time, 2)] *)
  env_duration : value;
  env_fromisoformat : string -> option datetime;
  env_strptime : string -> string -> option datetime;
  (** [croniter_match(schedule, now)] *)
  env_croniter_match : string -> Exc bool;
  env_email_config : email_config;
  (** [format_detailed_email_body(tenders, job_id, show_expired)]: only
      whether it returns a text or raises matters to the dispatcher *)
  env_format_detailed_email_body : list record -> string -> value -> Exc string;
  (** [requests.post(...)]: the status code, or the exception raised *)
  env_post : payload -> Exc Z;
  (** another process holds the lock on [dispatcher.lock] *)
  env_lock_held : bool;
  env_cache_file : cache_content;
  (** [write_text] fails on this file of [configs/] *)
  env_cfg_write_fails : string -> bool;
  (** [unlink] fails on this file of [configs/] *)
  env_cfg_unlink_fails : string -> bool;
  (** writing the seen-set file of this job fails *)
  env_seen_write_fails : string -> bool;
  (** reading, parsing or writing the status file of this job fails when
      this status is to be recorded *)
  env_status_io_fails : string -> string -> bool;
  (** appending the history line of this job fails *)
  env_history_write_fails : string -> bool;
  (** writing [email_tracking.json] fails *)
  env_tracking_write_fails : bool
}.

(** ** The state a run can change *)

(** A Python file object: open or closed. *)
Inductive file_object : Type := FileOpen | FileClosed.

Record state : Type := mk_state {
  (** content of [dispatcher.lock], [None] when the file does not exist *)
  lock_file : option string;
  (** [configs/*.json], by file stem, in directory order *)
  config_files : list (string * cfg_content);
  (** [seen/seen_<id>.json], by job id *)
  seen_files : gmap string seen_content;
  (** [status/<id>.json], by job id *)
  status_files : gmap string record;
  tracking_file : tracking_content;
  history_file : list history_entry;
  (** [self.lock_file] *)
  self_lock_file : option file_object;
  (** [self.email_tracker.data] *)
  self_tracker : tracker_data
}.

Definition set_lock_file (v : option string) (s : state) : state :=
  mk_state v (config_files s) (seen_files s) (status_files s) (tracking_file s)
    (history_file s) (self_lock_file s) (self_tracker s).
Definition set_config_files (v : list (string * cfg_content)) (s : state) : state :=
  mk_state (lock_file s) v (seen_files s) (status_files s) (tracking_file s)
    (history_file s) (self_lock_file s) (self_tracker s).
Definition set_seen_files (v : gmap string seen_content) (s : state) : state :=
  mk_state (lock_file s) (config_files s) v (status_files s) (tracking_file s)
    (history_file s) (self_lock_file s) (self_tracker s).
Definition set_status_files (v : gmap string record) (s : state) : state :=
  mk_state (lock_file s) (config_files s) (seen_files s) v (tracking_file s)
    (history_file s) (self_lock_file s) (self_tracker s).
Definition set_tracking_file (v : tracking_content) (s : state) : state :=
  mk_state (lock_file s) (config_files s) (seen_files s) (status_files s) v
    (history_file s) (self_lock_file s) (self_tracker s).
Definition set_history_file (v : list history_entry) (s : state) : state :=
  mk_state (lock_file s) (config_files s) (seen_files s) (status_files s)
    (tracking_file s) v (self_lock_file s) (self_tracker s).
Definition set_self_lock_file (v : option file_object) (s : state) : state :=
  mk_state (lock_file s) (config_files s) (seen_files s) (status_files s)
    (tracking_file s) (history_file s) v (self_tracker s).
Definition set_self_tracker (v : tracker_data) (s : state) : state :=
  mk_state (lock_file s) (config_files s) (seen_files s) (status_files s)
    (tracking_file s) (history_file s) (self_lock_file s) v.

(** ** Formatting helpers *)

(** A non-negative number printed on [n] digits, zero-padded. *)
Fixpoint pad_digits (n : nat) (z : Z) : string :=
  match n with
  | O => ""
  | S n' => pad_digits n' (z / 10) ++ pretty (z mod 10)
  end.

(** [str(date)] *)
Definition date_str (t : datetime) : string :=
  pad_digits 4 (dt_year t) ++ "-" ++ pad_digits 2 (dt_month t) ++ "-"
  ++ pad_digits 2 (dt_day t).

(** [t.isoformat()] of a naive datetime. *)
Definition isoformat (t : datetime) : string :=
  date_str t ++ "T" ++ pad_digits 2 (dt_hour t) ++ ":" ++ pad_digits 2 (dt_minute t)
  ++ ":" ++ pad_digits 2 (dt_second t)
  ++ (if dt_microsecond t =? 0 then "" else "." ++ pad_digits 6 (dt_microsecond t)).

(** [type(v).__name__] *)
Definition type_name (v : value) : string :=
  match v with
  | VNone => "NoneType"
  | VBool _ => "bool"
  | VInt _ => "int"
  | VStr _ => "str"
  | VList _ => "list"
  | VDict _ => "dict"
  end.

(** [d[k] = v] *)
Fixpoint dict_set (d : record) (k : string) (v : value) : record :=
  match d with
  | [] => [(k, v)]
  | (k', v') :: d' =>
      if String.eqb k k' then (k, v) :: d' else (k', v') :: dict_set d' k v
  end.

(** [d.update(u)] *)
Definition dict_update (d u : record) : record :=
  fold_left (fun acc kv => dict_set acc (fst kv) (snd kv)) u d.

(** ** [JobDispatcher] *)

Definition nl : string := String (ascii_of_N 10) "".

(** The clock reading: [dt.datetime.now()] is naive. *)
Definition now (E : env) : datetime :=
  let t := env_now E in
  mk_datetime (dt_year t) (dt_month t) (dt_day t) (dt_hour t) (dt_minute t)
    (dt_second t) (dt_microsecond t) None.

Definition now_iso (E : env) : string := isoformat (now E).

(** [EmailTracker._load_tracking_data] *)
Definition load_tracking_data (f : tracking_content) : tracker_data :=
  match f with
  | TrackingData tr => tr
  | TrackingMissing | TrackingCorrupt => empty_tracker
  end.

(** [JobDispatcher.__init__] *)
Definition JobDispatcher_init (s : state) : state :=
  set_self_tracker (load_tracking_data (tracking_file s))
    (set_self_lock_file None s).

(** [acquire_lock]: opening the file for writing creates or empties it;
    the non-blocking [flock] raises when another process holds the lock. *)
Definition acquire_lock (E : env) (s : state) : state * bool :=
  let s1 := set_self_lock_file (Some FileOpen) (set_lock_file (Some "") s) in
  if env_lock_held E then (set_self_lock_file (Some FileClosed) s1, false)
  else
    (set_lock_file
       (Some ("PID: " ++ pretty (env_pid E) ++ nl ++ "Started: " ++ now_iso E ++ nl)) s1,
     true).

(** [release_lock]: [fileno()] of a closed file object raises. *)
Definition release_lock (s : state) : state * Exc unit :=
  match self_lock_file s with
  | None => (s, Return tt)
  | Some FileClosed => (s, Raise (ValueError "I/O operation on closed file"))
  | Some FileOpen =>
      (set_lock_file None (set_self_lock_file (Some FileClosed) s), Return tt)
  end.

(** [load_cache_data]: [None] for a missing or unreadable cache. *)
Definition load_cache_data (E : env) : option (list record) :=
  match env_cache_file E with
  | CacheMissing | CacheCorrupt => None
  | CacheData c =>
      let data := default [] (cache_records c) in
      match cache_timestamp c with
      | None => Some data
      | Some ts =>
          if String.eqb ts "" then Some data
          else
            match env_fromisoformat E ts with
            | None => None
            | Some cache_dt =>
                (* [now() - cache_dt] raises for an aware [cache_dt] *)
                match dt_utcoffset cache_dt with
                | Some _ => None
                | None => Some data
                end
            end
      end
  end.

(** [validate_job_config] *)
Definition validate_job_config (j : job) : bool :=
  match job_id j, job_recipients j, job_schedule j with
  | Some _, Some rs, Some _ => match rs with [] => false | _ => true end
  | _, _, _ => false
  end.

(** The placeholder written by [attempt_job_repair]; its ["interval"] key
    is not read by the dispatcher. *)
Definition repair_data (stem : string) : job :=
  mk_job (Some stem) (Some []) (Some ["repair@needed.com"]) (Some "*/30 * * * *").

Definition write_config (stem : string) (c : cfg_content)
    (files : list (string * cfg_content)) : list (string * cfg_content) :=
  List.map (fun f => if String.eqb (fst f) stem then (stem, c) else f) files.

Definition unlink_config (stem : string)
    (files : list (string * cfg_content)) : list (string * cfg_content) :=
  List.filter (fun f => negb (String.eqb (fst f) stem)) files.

(** [attempt_job_repair]: when the write fails the file is unlinked, in
    the handler and outside any [try], so a failing [unlink] raises. *)
Definition attempt_job_repair (E : env) (stem : string) (s : state)
    : state * Exc unit :=
  if env_cfg_write_fails E stem then
    if env_cfg_unlink_fails E stem
    then (s, Raise (OSError "unlink failed"))
    else (set_config_files (unlink_config stem (config_files s)) s, Return tt)
  else (set_config_files (write_config stem (CfgJob (repair_data stem)) (config_files s)) s,
        Return tt).

(** The loop of [load_job_configs]; an exception of the repair leaves
    it. *)
Fixpoint load_job_configs_loop (E : env) (files : list (string * cfg_content))
    (s : state) : state * Exc (list job) :=
  match files with
  | [] => (s, Return [])
  | (stem, CfgJob j) :: rest =>
      match load_job_configs_loop E rest s with
      | (s', Return jobs) =>
          (s', Return (if validate_job_config j then j :: jobs else jobs))
      | (s', Raise e) => (s', Raise e)
      end
  | (stem, CfgCorrupt) :: rest =>
      match attempt_job_repair E stem s with
      | (s1, Return _) => load_job_configs_loop E rest s1
      | (s1, Raise e) => (s1, Raise e)
      end
  end.

(** [load_job_configs] *)
Definition load_job_configs (E : env) (s : state) : state * Exc (list job) :=
  load_job_configs_loop E (config_files s) s.

(** [job["id"]] *)
Definition job_getitem_id (j : job) : Exc string :=
  match job_id j with
  | Some i => Return i
  | None => Raise (KeyError "'id'")
  end.

(** [is_job_due]: a failing cron match means "not due"; the handler
    itself reads [job['id']]. *)
Definition is_job_due (E : env) (j : job) : Exc bool :=
  match env_croniter_match E (default "*/30 * * * *" (job_schedule j)) with
  | Return b => Return b
  | Raise _ => let* _ := job_getitem_id j in Return false
  end.

(** [load_job_seen_cache] *)
Definition load_job_seen_cache (s : state) (id : string) : gset string :=
  match seen_files s !! id with
  | Some (SeenIds ids) => list_to_set ids
  | Some SeenCorrupt | None => ∅
  end.

(** [save_job_seen_cache]: a failed write is logged and dropped. *)
Definition save_job_seen_cache (E : env) (id : string) (seen_ids : gset string)
    (s : state) : state :=
  if env_seen_write_fails E id then s
  else set_seen_files (<[id := SeenIds (sorted (elements seen_ids))]> (seen_files s)) s.

(** [str(tender.get("id", ""))] *)
Definition tender_id (tender : record) : string :=
  py_str (dict_get_default tender "id" (VStr "")).

(** The class test of lines 229-236: [any(c.lower() in category.lower())]. *)
Definition category_matches (allowed_classes : list string) (category : value) : Exc bool :=
  match allowed_classes with
  | [] => Return true
  | _ =>
      match category with
      | VStr c => Return (existsb (fun a => contains (lower a) (lower c)) allowed_classes)
      | v => Raise (AttributeError
                      ("'" ++ type_name v ++ "' object has no attribute 'lower'"))
      end
  end.

Section FilterLoop.
Variable E : env.
Variable allowed_classes : list string.
Variable seen_ids : gset string.

(** The loop of lines 220-244: the pair [(fresh_tenders, all_active_tenders)]. *)
Fixpoint filter_loop (data : list record) : Exc (list record * list record) :=
  match data with
  | [] => Return ([], [])
  | tender :: rest =>
      if String.eqb (tender_id tender) "" then filter_loop rest
      else
        let* ok := category_matches allowed_classes (get_tender_category tender) in
        if negb ok then filter_loop rest
        else
          let* active := is_tender_active (env_fromisoformat E) (env_strptime E)
                           tender (now E) in
          let* r := filter_loop rest in
          if active then
            Return (if bool_decide (tender_id tender ∈ seen_ids)
                    then fst r else tender :: fst r,
                    tender :: snd r)
          else Return r
  end.
End FilterLoop.

(** [filter_data_for_job]: the tenders to send and whether the run is a
    catch-up. *)
Definition filter_data_for_job (E : env) (tr : tracker_data) (data : list record)
    (j : job) (seen_ids : gset string) : Exc (list record * bool) :=
  let allowed_classes := default [] (job_classes j) in
  let rcpts := default [] (job_recipients j) in
  let has_new_recipients := existsb (is_new_recipient tr) rcpts in
  let* config := env_load_app_config E in
  let send_all_active_to_new :=
    eq_str "all_active" (dict_get_default config "new_recipient_mode" (VStr "new_only")) in
  let* r := filter_loop E allowed_classes seen_ids data in
  if has_new_recipients && send_all_active_to_new then
    Return (List.filter
              (fun tender =>
                 existsb (fun email =>
                            is_new_recipient tr email
                            && negb (bool_decide (tender_id tender ∈ get_sent_tenders tr email)))
                         rcpts)
              (snd r), true)
  else Return (fst r, false).

(** [format_email_body] *)
Definition format_email_body (E : env) (tenders : list record) (id : string)
    (is_catch_up : bool) : Exc string :=
  let* config := env_load_app_config E in
  let show_expired := dict_get_default config "show_expired_in_emails" (VBool false) in
  let header := if is_catch_up
                then "Catch-up email for new recipient(s) - Job " ++ id else "" in
  let* body := env_format_detailed_email_body E tenders id show_expired in
  Return (if String.eqb header "" then body
          else header ++ nl ++ String.concat "" (List.repeat "=" (String.length header))
               ++ nl ++ nl ++ body).

(** [[str(t.get("id", "")) for t in tenders if t.get("id")]] *)
Definition sent_ids (tenders : list record) : list string :=
  tender_id <$> List.filter (fun t => truthy (dict_get_default t "id" VNone)) tenders.

(** [EmailTracker.save], called on the dispatcher's tracker: a failed
    write is reported and dropped. *)
Definition save_tracker (E : env) (s : state) : state :=
  let tr := mk_tracker (recipients (self_tracker s)) (Some (now_iso E)) in
  if env_tracking_write_fails E then set_self_tracker tr s
  else set_tracking_file (TrackingData tr) (set_self_tracker tr s).

(** Lines 317-320: the ledger update after a delivered notification. *)
Definition record_delivery (E : env) (rcpts : list string) (tenders : list record)
    (s : state) : state :=
  let tender_ids := VStr <$> sent_ids tenders in
  let tr := fold_left (fun t email => mark_tenders_sent (now_iso E) t email tender_ids)
              rcpts (self_tracker s) in
  save_tracker E (set_self_tracker tr s).

(** The [try] block of [send_email] up to the response: the status code
    and the recipients. *)
Definition send_email_try (E : env) (j : job) (tenders : list record)
    (is_catch_up : bool) : Exc (Z * list string) :=
  let cfg := env_email_config E in
  let subject :=
    subject_prefix cfg ++ " " ++ pretty (Z.of_nat (length tenders))
    ++ " new tender(s) - " ++ date_str (now E)
    ++ (if is_catch_up then " (catch-up)" else "") in
  let* id := job_getitem_id j in
  let* body := format_email_body E tenders id is_catch_up in
  let* rcpts := match job_recipients j with
                | Some rs => Return rs
                | None => Raise (KeyError "'recipients'")
                end in
  let* code := env_post E (mk_payload (from_email cfg) rcpts subject body) in
  Return (code, rcpts).

(** [send_email]: every failure inside the [try] block is logged and
    answered with [False]; the log lines read [job['id']]. *)
Definition send_email (E : env) (s : state) (j : job) (tenders : list record)
    (is_catch_up : bool) : state * Exc bool :=
  if String.eqb (api_key (env_email_config E)) "" then
    (s, let* _ := job_getitem_id j in Return false)
  else
    match send_email_try E j tenders is_catch_up with
    | Return (code, rcpts) =>
        if code =? 200 then (record_delivery E rcpts tenders s, Return true)
        else (s, Return false)
    | Raise _ => (s, let* _ := job_getitem_id j in Return false)
    end.

(** [update_job_status(job_id, status, **kwargs)]: any failure of
    reading, parsing or writing the file is logged and dropped. *)
Definition update_job_status (E : env) (id status : string) (kwargs : record)
    (s : state) : state :=
  let current_status := default [] (status_files s !! id) in
  if env_status_io_fails E id status then s else
  set_status_files
    (<[id := dict_update current_status
               (("status", VStr status) :: ("last_update", VStr (now_iso E)) :: kwargs)]>
       (status_files s)) s.

(** [log_execution_history]: a failed append is logged and dropped. *)
Definition log_execution_history (E : env) (id : string) (success : bool)
    (tenders_found : Z) (error : option string) (s : state) : state :=
  if env_history_write_fails E id then s else
  set_history_file
    (history_file s
     ++ [mk_history (now_iso E) id success tenders_found (env_duration E) error]) s.

(** [{str(t["id"]) for t in all_data if t.get("id")}] *)
Definition all_current_ids (all_data : list record) : gset string :=
  list_to_set (sent_ids all_data).

(** The [try] block of [process_job], lines 377-414. *)
Definition process_job_try (E : env) (id : string) (j : job) (all_data : list record)
    (s : state) : state * Exc bool :=
  let s1 := update_job_status E id "running"
              [("last_run_start", VStr (now_iso E))] s in
  let seen_ids := load_job_seen_cache s1 id in
  match filter_data_for_job E (self_tracker s1) all_data j seen_ids with
  | Raise e => (s1, Raise e)
  | Return (fresh_tenders, is_catch_up) =>
      let '(s2, sent) :=
        match fresh_tenders with
        | [] => (s1, Return false)
        | _ => send_email E s1 j fresh_tenders is_catch_up
        end in
      match sent with
      | Raise e => (s2, Raise e)
      | Return email_sent =>
          let s3 := save_job_seen_cache E id (all_current_ids all_data) s2 in
          let s4 := update_job_status E id "idle"
                      [("last_run_end", VStr (now_iso E));
                       ("last_run_duration", env_duration E);
                       ("last_run_tenders", VInt (Z.of_nat (length fresh_tenders)));
                       ("last_run_success", VBool true);
                       ("last_run_was_catchup", VBool is_catch_up)] s3 in
          (log_execution_history E id true (Z.of_nat (length fresh_tenders)) None s4,
           Return true)
      end
  end.

(** [process_job]: the handler of lines 416-429 turns any exception of
    the [try] block into an [error] status and a [False] result. *)
Definition process_job (E : env) (s : state) (j : job) (all_data : list record)
    : state * Exc bool :=
  match job_getitem_id j with
  | Raise e => (s, Raise e)
  | Return id =>
      match process_job_try E id j all_data s with
      | (s', Return b) => (s', Return b)
      | (s', Raise e) =>
          let error_msg := str_exn e in
          let s1 := update_job_status E id "error"
                      [("last_run_end", VStr (now_iso E));
                       ("last_run_error", VStr error_msg);
                       ("last_run_success", VBool false)] s' in
          (log_execution_history E id false 0 (Some error_msg) s1, Return false)
      end
  end.

(** The housekeeping of [cleanup_old_files]: ledger entries of addresses
    that no valid job lists are dropped. *)
Definition cleanup_old_files (E : env) (s : state) : state :=
  match load_job_configs E s with
  | (s1, Raise _) => s1
  | (s1, Return jobs) =>
  let active_recipients : gset string :=
    list_to_set (List.concat (List.map (fun j => default [] (job_recipients j)) jobs)) in
  let current_recipients : gset string := dom (recipients (self_tracker s1)) in
  let orphaned := current_recipients ∖ active_recipients in
  if bool_decide (orphaned = ∅) then s1
  else
    let kept := filter (fun kv => fst kv ∉ orphaned) (recipients (self_tracker s1)) in
    save_tracker E
      (set_self_tracker (mk_tracker kept (last_updated (self_tracker s1))) s1)
  end.

(** [[job for job in jobs if self.is_job_due(job)]] *)
Fixpoint due_jobs (E : env) (jobs : list job) : Exc (list job) :=
  match jobs with
  | [] => Return []
  | j :: rest =>
      let* d := is_job_due E j in
      let* ds := due_jobs E rest in
      Return (if d then j :: ds else ds)
  end.

(** The loop of lines 485-488, with the result of each job in order;
    [success_count] is the number of [true] among them. *)
Fixpoint process_jobs (E : env) (due : list job) (all_data : list record) (s : state)
    : state * Exc (list bool) :=
  match due with
  | [] => (s, Return [])
  | j :: rest =>
      match process_job E s j all_data with
      | (s1, Raise e) => (s1, Raise e)
      | (s1, Return ok) =>
          match process_jobs E rest all_data s1 with
          | (s2, Raise e) => (s2, Raise e)
          | (s2, Return oks) => (s2, Return (ok :: oks))
          end
      end
  end.

(** The [try] block of [run], lines 464-494, with the results of the
    jobs processed. *)
Definition run_try (E : env) (s : state) : state * Exc (list bool) :=
  match load_cache_data E with
  | None | Some [] => (s, Return [])
  | Some all_data =>
      match load_job_configs E s with
      | (s1, Raise e) => (s1, Raise e)
      | (s1, Return []) => (s1, Return [])
      | (s1, Return jobs) =>
          match due_jobs E jobs with
          | Raise e => (s1, Raise e)
          | Return [] => (s1, Return [])
          | Return due =>
              match process_jobs E due all_data s1 with
              | (s2, Raise e) => (s2, Raise e)
              | (s2, Return oks) =>
                  (if dt_minute (now E) mod 10 =? 0 then cleanup_old_files E s2 else s2,
                   Return oks)
              end
          end
      end
  end.

(** [run]: the lock is released in the [finally] clause of the [try]
    block, which is entered only once the lock is held. *)
Definition run (E : env) (s : state) : state * Exc (list bool) :=
  let '(s0, locked) := acquire_lock E s in
  if negb locked then (s0, Return [])
  else
    let '(s1, r) := run_try E s0 in
    match release_lock s1 with
    | (s2, Raise e) => (s2, Raise e)
    | (s2, Return _) => (s2, r)
    end.

(** [main]: an exception of [run] is logged and dropped; the [finally]
    clause releases the lock once more, outside any handler. *)
Definition main (E : env) (s : state) : state * Exc unit :=
  let '(s1, _) := run E (JobDispatcher_init s) in
  release_lock s1.

(** The name space of [job_dispatcher.py] as the file is written: the
    module calls [load_app_config] at lines 217 and 266, and neither
    defines nor imports it. *)
Definition load_app_config_unbound : Exc record :=
  Raise (NameError "name 'load_app_config' is not defined").

(** * Vocabulary of the statements *)

(** [tender] carries a nested category object. *)
Definition has_nested_category (tender : record) : bool :=
  match dict_get tender "procurement_category" with
  | Some (VDict _) => true
  | _ => false
  end.

(** The field of [tender] whose content [get_tender_category] hands out:
    the title of the nested object, or the first legacy flat field. *)
Definition selected_category_field (tender : record) : option value :=
  match dict_get tender "procurement_category" with
  | Some (VDict pc) => dict_get pc "title"
  | _ =>
      match dict_get tender "category_name" with
      | Some v => Some v
      | None => dict_get tender "category"
      end
  end.

Definition nonempty_str (v : value) : bool :=
  match v with
  | VStr s => negb (String.eqb s "")
  | _ => false
  end.

(** Aware datetimes carry a UTC offset. *)
Definition aware (t : datetime) : bool :=
  match dt_utcoffset t with Some _ => true | None => false end.

(** ** Sample inputs *)

Definition tender_empty_category : record :=
  [("id", VInt 12); ("category_name", VStr "")].

Definition tender_nested_category : record :=
  [("id", VInt 12); ("procurement_category", VDict [("title", VStr "Works")])].

(** A tender that closed on 1 January 2020, UTC. *)
Definition tender_closed_2020 : record :=
  [("id", VInt 7); ("close_at", VStr "2020-01-01T00:00:00Z")].

(** A reading of [dt.datetime.now()] on 1 January 2025. *)
Definition reference_2025 : datetime := mk_datetime 2025 1 1 0 0 0 0 None.

(** ** Subscription store *)

(** The jobs [load_job_configs] hands out: the files that parse and pass
    the validation, in directory order. *)
Definition valid_jobs_of (files : list (string * cfg_content)) : list job :=
  omap (fun f => match snd f with
                 | CfgJob j => if validate_job_config j then Some j else None
                 | CfgCorrupt => None
                 end) files.

(** The stems of the files that do not parse. *)
Definition corrupt_stems (files : list (string * cfg_content)) : list string :=
  omap (fun f => match snd f with
                 | CfgCorrupt => Some (fst f)
                 | CfgJob _ => None
                 end) files.

(** The effect of [attempt_job_repair] on the directory. *)
Definition repair_files (E : env) (stem : string)
    (files : list (string * cfg_content)) : list (string * cfg_content) :=
  if env_cfg_write_fails E stem then unlink_config stem files
  else write_config stem (CfgJob (repair_data stem)) files.

(** The persisted state outside the lock file: what the subscriptions,
    the seen-sets, the ledger, the status files and the history hold. *)
Definition same_persisted (s s' : state) : Prop :=
  config_files s' = config_files s ∧ seen_files s' = seen_files s
  ∧ status_files s' = status_files s ∧ tracking_file s' = tracking_file s
  ∧ history_file s' = history_file s.

(** The cache yields no record: it is missing, unreadable, or its record
    list is empty. *)
Definition cache_without_records (c : cache_content) : Prop :=
  match c with
  | CacheMissing | CacheCorrupt => True
  | CacheData d => default [] (cache_records d) = []
  end.

(** ** A sample host and store *)

(** The subscription of the end-to-end scenarios. *)
Definition job_ab12cd34 : job :=
  mk_job (Some "ab12cd34") (Some []) (Some ["a@x.com"]) (Some "*/5 * * * *").

(** A second due subscription. *)
Definition job_c0ffee00 : job :=
  mk_job (Some "c0ffee00") (Some ["works"]) (Some ["c@x.com"]) (Some "*/5 * * * *").

(** A subscription whose file lacks the [recipients] key. *)
Definition job_without_recipients : job :=
  mk_job (Some "77aa00ff") (Some []) None (Some "*/5 * * * *").

Definition active_tender (id : Z) : record :=
  [("id", VInt id); ("title", VStr "Supply of desks");
   ("category_name", VStr "Goods"); ("close_at", VStr "2030-06-30 10:00:00")].

(** Four active tenders, identities 1 to 4. *)
Definition four_tenders : list record :=
  [active_tender 1; active_tender 2; active_tender 3; active_tender 4].

Definition cache_of (data : list record) : cache_content :=
  CacheData (mk_cache (Some "2025-01-01T09:00:00") (Some data)).

(** A host on 1 January 2025, 09:05, where the cron matcher accepts the
    five-minute schedule, the API key is set and the sink answers with
    the status [code]. *)
Definition host (app_config : Exc record) (lock_held : bool) (cache : cache_content)
    (code : Z) : env :=
  mk_env app_config (mk_datetime 2025 1 1 9 5 0 0 None) 4242 (VInt 0)
    fromisoformat_fixed strptime_fixed
    (fun schedule => Return (String.eqb schedule "*/5 * * * *"))
    (mk_email_config "re_123" "noreply@yourdomain.com" "[TenderDash]")
    (fun _ _ _ => Return "Found tender(s)")
    (fun _ => Return code)
    lock_held cache (fun _ => false) (fun _ => false) (fun _ => false)
    (fun _ _ => false) (fun _ => false) false.

(** The host with the name space of [job_dispatcher.py] as shipped. *)
Definition host_as_shipped (lock_held : bool) (cache : cache_content) : env :=
  host load_app_config_unbound lock_held cache 200.

(** The configuration [load_app_config] of [dashboard_app.py] returns on
    a host with no configuration file and no environment variables. *)
Definition default_app_config : record :=
  [("resend_api_key", VStr ""); ("email_from", VStr "noreply@yourdomain.com");
   ("email_subject_prefix", VStr "[TenderDash]"); ("default_recipients", VStr "");
   ("harvest_frequency", VInt 10); ("max_pages", VInt 3)].

(** The ledger after tenders 1 to 3 went to [a@x.com]. *)
Definition ledger_123 : tracker_data :=
  mk_tracker {["a@x.com" := mk_entry "2025-01-01T09:00:00" ["1"; "2"; "3"]
                              (Some "2025-01-01T09:00:00")]}
    (Some "2025-01-01T09:00:00").

(** The store of the second end-to-end scenario: one subscription, its
    seen-set holding 1 to 3. *)
Definition store_123 : state :=
  mk_state None [("ab12cd34", CfgJob job_ab12cd34)]
    {["ab12cd34" := SeenIds ["1"; "2"; "3"]]} ∅ (TrackingData ledger_123) []
    None ledger_123.

(** The store of the first end-to-end scenario: the subscription alone,
    nothing seen, nothing delivered. *)
Definition store_fresh : state :=
  mk_state None [("ab12cd34", CfgJob job_ab12cd34)] ∅ ∅ TrackingMissing []
    None empty_tracker.

(** Three active tenders, identities 1 to 3. *)
Definition three_tenders : list record :=
  [active_tender 1; active_tender 2; active_tender 3].

(** A store with one subscription file that fails the validation. *)
Definition store_invalid : state :=
  mk_state None [("77aa00ff", CfgJob job_without_recipients)] ∅ ∅ TrackingMissing []
    None empty_tracker.

(** ** Candidates of a regular run *)

(** The test the loop of [filter_data_for_job] applies to a record on a
    regular run: an identity, a category matching the class filter, an
    open tender, an identity not yet seen. *)
Definition regular_candidate (E : env) (j : job) (seen_ids : gset string)
    (tender : record) : bool :=
  negb (String.eqb (tender_id tender) "")
  && match category_matches (default [] (job_classes j)) (get_tender_category tender) with
     | Return b => b
     | Raise _ => false
     end
  && match is_tender_active (env_fromisoformat E) (env_strptime E) tender (now E) with
     | Return b => b
     | Raise _ => false
     end
  && negb (bool_decide (tender_id tender ∈ seen_ids)).

(** The configuration asks for the catch-up of new recipients. *)
Definition all_active_mode (config : record) : bool :=
  eq_str "all_active" (dict_get_default config "new_recipient_mode" (VStr "new_only")).

(** A record on which the loop cannot raise: its category is a string
    and its close date is not a list or an object. *)
Definition plain_tender (tender : record) : Prop :=
  (∃ c, get_tender_category tender = VStr c)
  ∧ match dict_get_default tender "close_at" (VStr "") with
    | VList _ | VDict _ => False
    | _ => True
    end.

(** ** Further sample inputs *)

(** A subscription filtered on goods, with a long-standing and a new
    recipient. *)
Definition job_goods : job :=
  mk_job (Some "ab12cd34") (Some ["goods"]) (Some ["a@x.com"; "b@x.com"])
    (Some "*/5 * * * *").

(** Tenders 1 to 4 as above, tender 5 closed in 2020, tender 6 of another
    category. *)
Definition mixed_tenders : list record :=
  four_tenders ++
  [[("id", VInt 5); ("category_name", VStr "Goods");
    ("close_at", VStr "2020-06-30 10:00:00")];
   [("id", VInt 6); ("category_name", VStr "Consultancy");
    ("close_at", VStr "2030-06-30 10:00:00")]].

(** * Further functions of the two modules and of their callers *)

(** ** tender_utils.py *)



(** [filter_active_tenders(tenders)]: [[t for t in tenders if
    is_tender_active(t)]], the clock reading being [reference_date]. *)
Fixpoint filter_active_tenders (fromisoformat : string -> option datetime)
    (strptime : string -> string -> option datetime) (reference_date : datetime)
    (tenders : list record) : Exc (list record) :=
  match tenders with
  | [] => Return []
  | t :: rest =>
      let* active := is_tender_active fromisoformat strptime t reference_date in
      let* r := filter_active_tenders fromisoformat strptime reference_date rest in
      Return (if active then t :: r else r)
  end.


(** One entry of [get_stats()["recipients"]]. *)
Record recipient_stats : Type := mk_recipient_stats {
  stat_tenders_sent : nat;
  stat_first_seen : string;
  stat_last_sent : option string
}.

(** [EmailTracker.get_stats()]: the number of recipients and the entry
    of each. *)
Definition get_stats (tr : tracker_data) : nat * gmap string recipient_stats :=
  (size (recipients tr),
   (fun e => mk_recipient_stats (length (sent_tenders e)) (first_seen e) (last_sent e))
     <$> recipients tr).

(** [a == b] on the values a dict can have as keys; [True] equals [1]
    and [False] equals [0]. *)
Definition py_key_eq (a b : value) : bool :=
  match a, b with
  | VNone, VNone => true
  | VStr s, VStr t => String.eqb s t
  | VInt x, VInt y => x =? y
  | VBool x, VBool y => Bool.eqb x y
  | VBool x, VInt y | VInt y, VBool x => y =? (if x then 1 else 0)
  | _, _ => false
  end.




(** ** tender_scraper.py *)

(** The loop of [filter_rows], lines 213-233. *)
Fixpoint filter_rows_loop (seen : gset string) (allowed : list string)
    (rows : list record) : Exc (list record) :=
  match rows with
  | [] => Return []
  | row :: rest =>
      if String.eqb (tender_id row) "" then filter_rows_loop seen allowed rest
      else if bool_decide (tender_id row ∈ seen) then filter_rows_loop seen allowed rest
      else
        let* ok := category_matches allowed (get_tender_category row) in
        let* r := filter_rows_loop seen allowed rest in
        Return (if ok then row :: r else r)
  end.

(** [filter_rows(rows, seen, allowed, active_only)] *)
Definition filter_rows (fromisoformat : string -> option datetime)
    (strptime : string -> string -> option datetime) (reference_date : datetime)
    (rows : list record) (seen : gset string) (allowed : list string)
    (active_only : bool) : Exc (list record) :=
  let* rows' := if active_only
                then filter_active_tenders fromisoformat strptime reference_date rows
                else Return rows in
  filter_rows_loop seen allowed rows'.

(** ** job_dispatcher.py *)

(** [get_email_tracking_stats] *)
Definition get_email_tracking_stats (s : state) : nat * gmap string recipient_stats :=
  get_stats (self_tracker s).

(** ** Vocabulary of the further statements *)

(** The test of the catch-up run: an identity, a category matching the
    class filter, an open tender. *)
Definition active_candidate (E : env) (j : job) (tender : record) : bool :=
  negb (String.eqb (tender_id tender) "")
  && match category_matches (default [] (job_classes j)) (get_tender_category tender) with
     | Return b => b
     | Raise _ => false
     end
  && match is_tender_active (env_fromisoformat E) (env_strptime E) tender (now E) with
     | Return b => b
     | Raise _ => false
     end.

(** The two tests for "the record has an id" agree on [tender]. *)
Definition consistent_id (tender : record) : Prop :=
  tender_id tender ≠ "" → truthy (dict_get_default tender "id" VNone) = true.

(** The keys [process_job] writes into a status file. *)
Definition status_keys : list string :=
  ["status"; "last_update"; "last_run_start"; "last_run_end"; "last_run_duration";
   "last_run_tenders"; "last_run_success"; "last_run_was_catchup"; "last_run_error"].

(** Ascending order on strings, as [sorted] leaves them. *)
Definition string_le (a b : string) : Prop := String.leb a b = true.




(** ** File operations that fail *)

(** The repair of this file can neither rewrite nor remove it. *)
Definition stuck_repair (E : env) (stem : string) : bool :=
  env_cfg_write_fails E stem && env_cfg_unlink_fails E stem.

(** The sample host with load_app_config bound or not, where the listed
    file operations fail. *)
Definition host_failing (app_config : Exc record) (cache : cache_content)
    (cfg_write cfg_unlink seen_write : string -> bool)
    (status_io : string -> string -> bool) (history_write : string -> bool)
    (tracking_write : bool) : env :=
  mk_env app_config (mk_datetime 2025 1 1 9 5 0 0 None) 4242 (VInt 0)
    fromisoformat_fixed strptime_fixed
    (fun schedule => Return (String.eqb schedule "*/5 * * * *"))
    (mk_email_config "re_123" "noreply@yourdomain.com" "[TenderDash]")
    (fun _ _ _ => Return "Found tender(s)")
    (fun _ => Return 200)
    false cache cfg_write cfg_unlink seen_write status_io history_write tracking_write.

(** A host as shipped on which no status file can be written. *)
Definition host_status_unwritable : env :=
  host_failing load_app_config_unbound (cache_of four_tenders)
    (fun _ => false) (fun _ => false) (fun _ => false) (fun _ _ => true)
    (fun _ => false) false.

(** A host with [load_app_config] bound on which no seen-set file can be
    written. *)
Definition host_seen_unwritable : env :=
  host_failing (Return default_app_config) (cache_of four_tenders)
    (fun _ => false) (fun _ => false) (fun _ => true) (fun _ _ => false)
    (fun _ => false) false.

(** A host on which the files of [configs/] can be neither written nor
    removed. *)
Definition host_configs_frozen : env :=
  host_failing (Return default_app_config) (cache_of four_tenders)
    (fun _ => true) (fun _ => true) (fun _ => false) (fun _ _ => false)
    (fun _ => false) false.

(** An active tender whose id is the number 0. *)
Definition tender_zero : record :=
  [("id", VInt 0); ("category_name", VStr "Goods");
   ("close_at", VStr "2030-06-30 10:00:00")].

(** * Properties *)

(** ** Auxiliary facts on sorting and sets *)

Lemma insert_sorted_perm (x : string) (l : list string) :
  Permutation (insert_sorted x l) (x :: l).
Proof.
  induction l as [|y l IH]; simpl; [reflexivity|].
  destruct (String.leb x y); [reflexivity|].
  rewrite IH. apply perm_swap.
Qed.

Lemma sorted_perm (l : list string) : Permutation (sorted l) l.
Proof.
  induction l as [|x l IH]; simpl; [reflexivity|].
  rewrite insert_sorted_perm. by constructor.
Qed.

Lemma list_to_set_sorted (l : list string) :
  list_to_set (C := gset string) (sorted l) = list_to_set l.
Proof.
  apply set_eq. intros x. rewrite !elem_of_list_to_set.
  by rewrite (sorted_perm l).
Qed.

Lemma list_to_set_sorted_elements (X : gset string) :
  list_to_set (C := gset string) (sorted (elements X)) = X.
Proof. by rewrite list_to_set_sorted, list_to_set_elements_L. Qed.

Lemma NoDup_sorted_elements (X : gset string) : NoDup (sorted (elements X)).
Proof. rewrite (sorted_perm (elements X)). apply NoDup_elements. Qed.

(** ** The delivery ledger *)

Lemma get_sent_tenders_mark (now : string) (tr : tracker_data) (email email' : string)
    (ids : list value) :
  get_sent_tenders (mark_tenders_sent now tr email ids) email' =
  if decide (email = email')
  then get_sent_tenders tr email' ∪ list_to_set (py_str <$> ids)
  else get_sent_tenders tr email'.
Proof.
  unfold get_sent_tenders, mark_tenders_sent; simpl.
  destruct (decide (email = email')) as [->|Hne].
  - rewrite lookup_insert_eq; simpl. rewrite list_to_set_sorted_elements.
    by destruct (recipients tr !! email').
  - by rewrite lookup_insert_ne.
Qed.

Lemma get_sent_tenders_mark_subseteq (now : string) (tr : tracker_data)
    (email email' : string) (ids : list value) :
  get_sent_tenders tr email' ⊆ get_sent_tenders (mark_tenders_sent now tr email ids) email'.
Proof. rewrite get_sent_tenders_mark. case_decide; set_solver. Qed.

Lemma mark_calls_app (now : string) (tr : tracker_data)
    (c1 c2 : list (string * list value)) :
  mark_calls now tr (c1 ++ c2) = mark_calls now (mark_calls now tr c1) c2.
Proof. unfold mark_calls. apply fold_left_app. Qed.

(** C8.  After [mark_tenders_sent(email, ids)] the set [get_sent_tenders]
    of [email] is the union of the set before the call and the strings of
    [ids] (so duplicates collapse, and the stored list holds each identity
    once), the set of any other address is unchanged, and along any run of
    calls with arbitrary identity lists the set of every address only
    grows. *)
Theorem mark_tenders_sent_monotone (now : string) (tr : tracker_data) (email : string)
    (ids : list value) :
  get_sent_tenders (mark_tenders_sent now tr email ids) email
    = get_sent_tenders tr email ∪ list_to_set (py_str <$> ids)
  ∧ (∀ email', get_sent_tenders (mark_tenders_sent now tr email ids) email'
               = if decide (email = email')
                 then get_sent_tenders tr email' ∪ list_to_set (py_str <$> ids)
                 else get_sent_tenders tr email')
  ∧ (∃ e, recipients (mark_tenders_sent now tr email ids) !! email = Some e
          ∧ NoDup (sent_tenders e))
  ∧ (∀ calls email',
       get_sent_tenders tr email' ⊆ get_sent_tenders (mark_calls now tr calls) email').
Proof.
  split; [|split; [|split]].
  - rewrite get_sent_tenders_mark. by rewrite decide_True.
  - intros email'. apply get_sent_tenders_mark.
  - unfold mark_tenders_sent; simpl. rewrite lookup_insert_eq.
    eexists; split; [reflexivity|]. simpl. apply NoDup_sorted_elements.
  - intros calls. induction calls as [|c calls IH] using rev_ind; intros email'.
    + reflexivity.
    + rewrite mark_calls_app. simpl. etrans; [apply IH|].
      apply get_sent_tenders_mark_subseteq.
Qed.

(** ** The record classifier *)

(** C7 fails as the specification states it: a record whose legacy
    category field is present and empty resolves to the empty string. *)
Lemma get_tender_category_empty :
  ¬ (∃ s, get_tender_category tender_empty_category = VStr s ∧ s ≠ "").
Proof. intros (s & Heq & Hne). vm_compute in Heq. congruence. Qed.

(** C7, amended.  [get_tender_category] is a total function (it cannot
    raise) and follows this chain: with a nested category object, its
    title, and ["Unknown"] when the object has no title; otherwise the
    flat field [category_name], then [category], then the placeholder
    built from [procurement_category_id], else ["Unknown"].  The result is
    a non-empty string whenever the field selected by the chain holds
    one; a selected field is handed out as it is. *)
Theorem get_tender_category_chain (tender : record) :
  (∀ pc, dict_get tender "procurement_category" = Some (VDict pc) →
         get_tender_category tender = dict_get_default pc "title" (VStr "Unknown"))
  ∧ (has_nested_category tender = false →
       get_tender_category tender =
       match dict_get tender "category_name", dict_get tender "category",
             dict_get tender "procurement_category_id" with
       | Some v, _, _ => v
       | None, Some v, _ => v
       | None, None, Some i => VStr ("Category #" ++ py_str i)
       | None, None, None => VStr "Unknown"
       end)
  ∧ ((∀ v, selected_category_field tender = Some v → nonempty_str v = true) →
     nonempty_str (get_tender_category tender) = true).
Proof.
  unfold get_tender_category, has_nested_category, selected_category_field,
    dict_get_default.
  split; [|split].
  - intros pc ->. reflexivity.
  - destruct (dict_get tender "procurement_category") as [[]|]; try discriminate;
      intros _; repeat case_match; reflexivity.
  - intros H.
    destruct (dict_get tender "procurement_category") as [[| | | | |pc]|];
      try (destruct (dict_get tender "category_name");
           [by apply H|destruct (dict_get tender "category");
                       [by apply H|by destruct (dict_get tender "procurement_category_id")]]).
    destruct (dict_get pc "title"); [by apply H|reflexivity].
Qed.

Lemma get_tender_category_chain_witness :
  nonempty_str (get_tender_category tender_nested_category) = true.
Proof.
  apply (get_tender_category_chain tender_nested_category).
  intros v Hv. vm_compute in Hv. by inversion Hv.
Defined.

Section IsTenderActive.
Variable fromisoformat : string -> option datetime.
Variable strptime : string -> string -> option datetime.

#[local] Abbreviation is_active := (is_tender_active fromisoformat strptime).
#[local] Abbreviation parse := (parse_close_at fromisoformat strptime).

(** On a [close_at] that is a non-empty string the function parses,
    compares, and answers "active" when either step fails. *)
Lemma is_tender_active_str (tender : record) (s : string) (ref : datetime) :
  dict_get tender "close_at" = Some (VStr s) → s ≠ "" →
  is_active tender ref =
  Return match parse s with
         | None => true
         | Some close_date =>
             match datetime_ge close_date ref with
             | Return b => b
             | Raise _ => true
             end
         end.
Proof.
  intros Hget Hs.
  unfold is_tender_active, dict_get_default, parse_close_at. rewrite Hget. simpl.
  destruct (String.eqb_spec s ""); [done|]. simpl.
  unfold is_tender_active_try. simpl.
  destruct (contains "T" s); simpl.
  - destruct (fromisoformat (replace_Z s)) as [c|]; simpl; [|done].
    unfold datetime_ge. by destruct (dt_utcoffset c), (dt_utcoffset ref).
  - destruct (contains " " s); simpl;
      (match goal with |- context [strptime s ?f] => destruct (strptime s f) as [c|] end);
      simpl; try done;
      unfold datetime_ge; by destruct (dt_utcoffset c), (dt_utcoffset ref).
Qed.

(** No close date, or an empty one: active. *)
Lemma is_tender_active_absent (tender : record) (ref : datetime) :
  truthy (dict_get_default tender "close_at" (VStr "")) = false →
  is_active tender ref = Return true.
Proof. intros H. unfold is_tender_active. by rewrite H. Qed.

(** A close date that does not parse: active. *)
Lemma is_tender_active_unparsable (tender : record) (s : string) (ref : datetime) :
  dict_get tender "close_at" = Some (VStr s) → parse s = None →
  is_active tender ref = Return true.
Proof.
  intros Hget Hp. destruct (String.eqb_spec s "") as [->|Hs].
  - apply is_tender_active_absent. unfold dict_get_default. by rewrite Hget.
  - rewrite (is_tender_active_str _ _ _ Hget Hs). by rewrite Hp.
Qed.

(** A close date that parses to a datetime of the same kind as the
    reference time (both naive or both aware): active exactly when it
    is not before the reference time. *)
Lemma is_tender_active_same_kind (tender : record) (s : string)
    (close_date ref : datetime) :
  dict_get tender "close_at" = Some (VStr s) → s ≠ "" →
  parse s = Some close_date → aware close_date = aware ref →
  ∃ b, datetime_ge close_date ref = Return b ∧ is_active tender ref = Return b.
Proof.
  intros Hget Hs Hp Hk. rewrite (is_tender_active_str _ _ _ Hget Hs), Hp.
  unfold datetime_ge, aware in *.
  destruct (dt_utcoffset close_date), (dt_utcoffset ref); try discriminate; eauto.
Qed.

(** C6, where the code parts from the specification.  A close date that parses
    to an aware datetime compared with a naive reference time (or the
    reverse) is reported active whatever the two dates are: the
    comparison raises [TypeError], which the handler meant for parse
    failures answers with [True]. *)
Theorem is_tender_active_mixed_kinds (tender : record) (s : string)
    (close_date ref : datetime) :
  dict_get tender "close_at" = Some (VStr s) → s ≠ "" →
  parse s = Some close_date → aware close_date ≠ aware ref →
  is_active tender ref = Return true.
Proof.
  intros Hget Hs Hp Hk. rewrite (is_tender_active_str _ _ _ Hget Hs), Hp.
  unfold datetime_ge, aware in *.
  by destruct (dt_utcoffset close_date), (dt_utcoffset ref).
Qed.

(** A [close_at] that is a list or an object holding ["T"] makes the
    function raise: [AttributeError] is not among the handled
    exceptions. *)
Lemma is_tender_active_list_raises (ref : datetime) :
  is_active [("close_at", VList [VStr "T"])] ref
  = Raise (AttributeError "'list' object has no attribute 'replace'").
Proof. reflexivity. Qed.

End IsTenderActive.

(** The tender closed five years before the reference time, its close
    date parses, and it is reported active. *)
Lemma is_tender_active_mixed_kinds_witness :
  parse_close_at fromisoformat_fixed strptime_fixed "2020-01-01T00:00:00Z"
    = Some (mk_datetime 2020 1 1 0 0 0 0 (Some 0))
  ∧ is_tender_active fromisoformat_fixed strptime_fixed tender_closed_2020 reference_2025
    = Return true.
Proof.
  split; [reflexivity|].
  apply (is_tender_active_mixed_kinds fromisoformat_fixed strptime_fixed
           tender_closed_2020 "2020-01-01T00:00:00Z"
           (mk_datetime 2020 1 1 0 0 0 0 (Some 0)) reference_2025);
    [reflexivity|discriminate|reflexivity|discriminate].
Defined.

(** With a naive close date the same tender is reported expired. *)
Example is_tender_active_naive_close :
  is_tender_active fromisoformat_fixed strptime_fixed
    [("id", VInt 7); ("close_at", VStr "2020-01-01 00:00:00")] reference_2025
  = Return false.
Proof. reflexivity. Qed.

(** ** The subscription store *)

Lemma set_config_files_id (s : state) : set_config_files (config_files s) s = s.
Proof. by destruct s. Qed.

Lemma attempt_job_repair_files (E : env) (stem : string) (s : state) :
  stuck_repair E stem = false →
  attempt_job_repair E stem s
  = (set_config_files (repair_files E stem (config_files s)) s, Return tt).
Proof.
  unfold attempt_job_repair, repair_files, stuck_repair.
  destruct (env_cfg_write_fails E stem); [|done].
  by destruct (env_cfg_unlink_fails E stem).
Qed.

Lemma attempt_job_repair_stuck (E : env) (stem : string) (s : state) :
  stuck_repair E stem = true →
  attempt_job_repair E stem s = (s, Raise (OSError "unlink failed")).
Proof.
  unfold attempt_job_repair, stuck_repair.
  destruct (env_cfg_write_fails E stem); [|done].
  by destruct (env_cfg_unlink_fails E stem).
Qed.

(** Whatever happens, the loop touches the directory only. *)
Lemma load_job_configs_loop_frame (E : env) (files : list (string * cfg_content))
    (s : state) :
  ∃ cf, fst (load_job_configs_loop E files s) = set_config_files cf s.
Proof.
  revert s. induction files as [|[stem [|j]] rest IH]; intros s; simpl.
  - exists (config_files s). by rewrite set_config_files_id.
  - destruct (stuck_repair E stem) eqn:Hst.
    + rewrite attempt_job_repair_stuck by done.
      exists (config_files s). by rewrite set_config_files_id.
    + rewrite attempt_job_repair_files by done.
      destruct (IH (set_config_files (repair_files E stem (config_files s)) s))
        as [cf ->]. by exists cf.
  - destruct (IH s) as [cf Hcf].
    destruct (load_job_configs_loop E rest s) as [s' [jobs|e]]; by exists cf.
Qed.

Lemma load_job_configs_loop_spec (E : env) (files : list (string * cfg_content))
    (s : state) :
  Forall (fun stem => stuck_repair E stem = false) (corrupt_stems files) →
  load_job_configs_loop E files s
  = (set_config_files
       (fold_left (fun cf stem => repair_files E stem cf) (corrupt_stems files)
          (config_files s)) s,
     Return (valid_jobs_of files)).
Proof.
  revert s. induction files as [|[stem [|j]] rest IH]; intros s Hok; simpl.
  - by rewrite set_config_files_id.
  - change (corrupt_stems ((stem, CfgCorrupt) :: rest))
      with (stem :: corrupt_stems rest) in Hok.
    apply Forall_cons in Hok as [Hst Hok].
    rewrite attempt_job_repair_files by done. rewrite IH by done. reflexivity.
  - rewrite IH by done. unfold valid_jobs_of; simpl.
    by destruct (validate_job_config j).
Qed.

Lemma load_job_configs_loop_raise (E : env) (files : list (string * cfg_content))
    (s : state) :
  Exists (fun stem => stuck_repair E stem = true) (corrupt_stems files) →
  snd (load_job_configs_loop E files s) = Raise (OSError "unlink failed").
Proof.
  revert s. induction files as [|[stem [|j]] rest IH]; intros s Hex; simpl.
  - by apply Exists_nil in Hex.
  - change (corrupt_stems ((stem, CfgCorrupt) :: rest))
      with (stem :: corrupt_stems rest) in Hex.
    destruct (stuck_repair E stem) eqn:Hst.
    + by rewrite attempt_job_repair_stuck.
    + rewrite attempt_job_repair_files by done. apply IH.
      apply Exists_cons in Hex as [Hex|Hex]; [congruence|done].
  - specialize (IH s Hex).
    by destruct (load_job_configs_loop E rest s) as [s' [jobs|e]]; simplify_eq/=.
Qed.

Lemma elem_of_write_config (stem : string) (c0 : cfg_content)
    (files : list (string * cfg_content)) (k : string) (c : cfg_content) :
  (k, c) ∈ write_config stem c0 files ↔
  (k ≠ stem ∧ (k, c) ∈ files) ∨ (k = stem ∧ c = c0 ∧ stem ∈ files.*1).
Proof.
  unfold write_config. rewrite list_elem_of_In, in_map_iff.
  setoid_rewrite <- list_elem_of_In. rewrite list_elem_of_fmap. split.
  - intros ([k' c'] & Heq & Hin). simpl in Heq.
    destruct (String.eqb_spec k' stem) as [Hs|Hne]; inversion Heq; subst.
    + right. split; [done|]. split; [done|]. by exists (k, c').
    + left. done.
  - intros [[Hne Hin]|(Hk & Hc & ([k' c'] & Hk' & Hin))].
    + exists (k, c). split; [|done]. simpl.
      by destruct (String.eqb_spec k stem).
    + simpl in Hk'. subst. exists (k', c'). split; [|done]. simpl.
      by rewrite String.eqb_refl.
Qed.

Lemma elem_of_unlink_config (stem : string) (files : list (string * cfg_content))
    (k : string) (c : cfg_content) :
  (k, c) ∈ unlink_config stem files ↔ k ≠ stem ∧ (k, c) ∈ files.
Proof.
  unfold unlink_config. rewrite list_elem_of_In, filter_In, <- list_elem_of_In. simpl.
  destruct (String.eqb_spec k stem); naive_solver.
Qed.

Lemma elem_of_repair_files (E : env) (stem : string)
    (files : list (string * cfg_content)) (k : string) (c : cfg_content) :
  (k, c) ∈ repair_files E stem files ↔
  (k ≠ stem ∧ (k, c) ∈ files)
  ∨ (k = stem ∧ env_cfg_write_fails E stem = false
     ∧ c = CfgJob (repair_data stem) ∧ stem ∈ files.*1).
Proof.
  unfold repair_files. destruct (env_cfg_write_fails E stem).
  - rewrite elem_of_unlink_config. naive_solver.
  - rewrite elem_of_write_config. naive_solver.
Qed.

Lemma stem_of_repair_files (E : env) (stem : string)
    (files : list (string * cfg_content)) (k : string) :
  k ∈ (repair_files E stem files).*1 ↔
  k ∈ files.*1 ∧ (k = stem → env_cfg_write_fails E stem = false).
Proof.
  rewrite !list_elem_of_fmap. split.
  - intros ([k' c] & -> & Hin). apply elem_of_repair_files in Hin. simpl.
    destruct Hin as [[Hne Hin]|(-> & Hw & -> & Hin)].
    + split; [|done]. by exists (k', c).
    + split; [|done]. by apply list_elem_of_fmap in Hin.
  - intros (([k' c] & -> & Hin) & Hw). simpl in *.
    destruct (decide (k' = stem)) as [->|Hne].
    + exists (stem, CfgJob (repair_data stem)). split; [done|].
      apply elem_of_repair_files. right. repeat split; auto.
      apply list_elem_of_fmap. by exists (stem, c).
    + exists (k', c). split; [done|]. apply elem_of_repair_files. by left.
Qed.

(** The directory after the repairs of [stems], entry by entry. *)
Lemma elem_of_repairs (E : env) (stems : list string)
    (files : list (string * cfg_content)) (k : string) (c : cfg_content) :
  (k, c) ∈ fold_left (fun cf stem => repair_files E stem cf) stems files ↔
  if decide (k ∈ stems)
  then env_cfg_write_fails E k = false ∧ c = CfgJob (repair_data k) ∧ k ∈ files.*1
  else (k, c) ∈ files.
Proof.
  revert files. induction stems as [|s0 stems IH]; intros files; cbn [fold_left].
  - case_decide; [set_solver|done].
  - rewrite IH. destruct (decide (k ∈ stems)) as [Hin|Hnin].
    + case_decide; [|set_solver]. rewrite stem_of_repair_files. naive_solver.
    + destruct (decide (k = s0)) as [->|Hne].
      * case_decide; [|set_solver]. rewrite elem_of_repair_files. naive_solver.
      * case_decide; [set_solver|]. rewrite elem_of_repair_files. naive_solver.
Qed.

Lemma elem_of_corrupt_stems (files : list (string * cfg_content)) (k : string) :
  k ∈ corrupt_stems files ↔ (k, CfgCorrupt) ∈ files.
Proof.
  unfold corrupt_stems. rewrite list_elem_of_omap. split.
  - intros ([k' [|j]] & Hin & Heq); simpl in *; by simplify_eq.
  - intros Hin. by exists (k, CfgCorrupt).
Qed.

Lemma elem_of_valid_jobs_of (files : list (string * cfg_content)) (j : job) :
  j ∈ valid_jobs_of files ↔
  validate_job_config j = true ∧ ∃ stem, (stem, CfgJob j) ∈ files.
Proof.
  unfold valid_jobs_of. rewrite list_elem_of_omap. split.
  - intros ([k [|j']] & Hin & Heq); simpl in *; [done|].
    destruct (validate_job_config j') eqn:Hv; simplify_eq. eauto.
  - intros (Hv & stem & Hin). exists (stem, CfgJob j). simpl. by rewrite Hv.
Qed.

(** C9 fails as the specification states it: a subscription file that parses and
    fails the validation (here: no [recipients]) is neither repaired nor
    deleted; the directory is left as it was. *)
Lemma load_job_configs_keeps_invalid :
  validate_job_config job_without_recipients = false
  ∧ ¬ (("77aa00ff", CfgJob (repair_data "77aa00ff"))
         ∈ config_files (fst (load_job_configs (host (Return []) false CacheMissing 200)
                                store_invalid))
       ∨ "77aa00ff"
         ∉ (config_files (fst (load_job_configs (host (Return []) false CacheMissing 200)
                                 store_invalid))).*1).
Proof.
  split; [reflexivity|]. vm_compute config_files. intros [H|H].
  - apply list_elem_of_singleton in H. discriminate.
  - apply H. simpl. set_solver.
Qed.

Lemma due_jobs_subseteq (E : env) (jobs due : list job) :
  due_jobs E jobs = Return due → due ⊆ jobs.
Proof.
  revert due. induction jobs as [|j jobs IH]; intros due; simpl.
  - intros [= <-]. done.
  - destruct (is_job_due E j) as [d|]; simpl; [|done].
    destruct (due_jobs E jobs) as [ds|]; simpl; [|done].
    intros [= <-]. specialize (IH ds eq_refl). destruct d; set_solver.
Qed.

(** C9, amended.  In a directory of distinct file names, and as long as
    no unreadable file resists both the repair write and the removal,
    [load_job_configs] hands out exactly the subscriptions that parse and
    pass the validation, so that a file failing it (missing [id],
    [recipients] or [schedule], or empty [recipients]) and a file that
    does not parse never reach the jobs processed in the tick.  A file
    that parses is left as it is, valid or not; a file that does not
    parse is rewritten to the placeholder subscription named after the
    file (placeholder recipient and schedule), or removed when that
    write fails.  Nothing else of the persisted state changes.  When an
    unreadable file can be neither rewritten nor removed, the
    exception of the removal leaves [load_job_configs] and the tick
    processes no subscription. *)
Theorem load_job_configs_store (E : env) (s : state) :
  NoDup (config_files s).*1 →
  (Forall (fun stem => stuck_repair E stem = false) (corrupt_stems (config_files s)) →
   ∃ s', load_job_configs E s = (s', Return (valid_jobs_of (config_files s)))
     ∧ (∀ due j, due_jobs E (valid_jobs_of (config_files s)) = Return due → j ∈ due →
          validate_job_config j = true ∧ ∃ stem, (stem, CfgJob j) ∈ config_files s)
     ∧ (∀ stem j, (stem, CfgJob j) ∈ config_files s → (stem, CfgJob j) ∈ config_files s')
     ∧ (∀ stem, (stem, CfgCorrupt) ∈ config_files s →
          (∀ j, (stem, CfgJob j) ∉ config_files s)
          ∧ ((stem, CfgCorrupt) ∉ config_files s')
          ∧ (if env_cfg_write_fails E stem
             then stem ∉ (config_files s').*1
             else (stem, CfgJob (repair_data stem)) ∈ config_files s'))
     ∧ seen_files s' = seen_files s ∧ status_files s' = status_files s
     ∧ tracking_file s' = tracking_file s ∧ history_file s' = history_file s)
  ∧ (Exists (fun stem => stuck_repair E stem = true) (corrupt_stems (config_files s)) →
     ∃ s' e, load_job_configs E s = (s', Raise e)
       ∧ snd (run_try E s) ∈ [Return []; Raise e]
       ∧ seen_files (fst (run_try E s)) = seen_files s
       ∧ status_files (fst (run_try E s)) = status_files s
       ∧ tracking_file (fst (run_try E s)) = tracking_file s
       ∧ history_file (fst (run_try E s)) = history_file s).
Proof.
  intros Hnd. split.
  - intros Hok. unfold load_job_configs. rewrite load_job_configs_loop_spec by done.
    eexists; split; [reflexivity|]. simpl.
    assert (Hfun : ∀ k c c', (k, c) ∈ config_files s → (k, c') ∈ config_files s → c = c').
    { intros k c c' H1 H2.
      apply list_elem_of_lookup in H1 as [i Hi], H2 as [i' Hi'].
      assert (i = i') as <-.
      { eapply NoDup_lookup; [exact Hnd| |]; rewrite list_lookup_fmap.
        - by rewrite Hi. - by rewrite Hi'. }
      congruence. }
    split; [|split; [|split]].
    + intros due j Hdue Hj. apply elem_of_valid_jobs_of.
      by apply (due_jobs_subseteq _ _ _ Hdue).
    + intros stem j Hin. apply elem_of_repairs.
      case_decide as Hc; [|done].
      apply elem_of_corrupt_stems in Hc. by specialize (Hfun _ _ _ Hin Hc).
    + intros stem Hin. split; [|split].
      * intros j Hj. by specialize (Hfun _ _ _ Hin Hj).
      * rewrite elem_of_repairs. rewrite decide_True by (by apply elem_of_corrupt_stems).
        by intros (_ & ? & _).
      * destruct (env_cfg_write_fails E stem) eqn:Hw.
        -- rewrite list_elem_of_fmap. intros ([k c] & -> & Hk). simpl in *.
           apply elem_of_repairs in Hk.
           rewrite decide_True in Hk by (by apply elem_of_corrupt_stems).
           destruct Hk as [Hk _]. congruence.
        -- apply elem_of_repairs. rewrite decide_True by (by apply elem_of_corrupt_stems).
           repeat split; [done|]. apply list_elem_of_fmap. by exists (stem, CfgCorrupt).
    + done.
  - intros Hex.
    pose proof (load_job_configs_loop_raise E (config_files s) s Hex) as Hr.
    destruct (load_job_configs_loop_frame E (config_files s) s) as [cf Hcf].
    fold (load_job_configs E s) in Hr, Hcf.
    unfold run_try.
    destruct (load_job_configs E s) as [s' r]. simpl in Hr, Hcf. subst r s'.
    eexists _, _. split; [reflexivity|].
    destruct (load_cache_data E) as [[|t data]|]; simpl; repeat split; set_solver.
Qed.

Lemma load_job_configs_store_witness :
  (∃ s', load_job_configs (host (Return []) false CacheMissing 200)
           (set_config_files [("77aa00ff", CfgJob job_without_recipients);
                              ("ab12cd34", CfgJob job_ab12cd34);
                              ("deadbeef", CfgCorrupt)] store_invalid)
         = (s', Return [job_ab12cd34])
     ∧ ("deadbeef", CfgJob (repair_data "deadbeef")) ∈ config_files s'
     ∧ ("77aa00ff", CfgJob job_without_recipients) ∈ config_files s')
  ∧ (∃ s' e, load_job_configs host_configs_frozen
               (set_config_files [("ab12cd34", CfgJob job_ab12cd34);
                                  ("deadbeef", CfgCorrupt)] store_invalid)
             = (s', Raise e)).
Proof.
  split.
  - destruct (proj1 (load_job_configs_store (host (Return []) false CacheMissing 200)
                (set_config_files [("77aa00ff", CfgJob job_without_recipients);
                                   ("ab12cd34", CfgJob job_ab12cd34);
                                   ("deadbeef", CfgCorrupt)] store_invalid)
                ltac:(simpl; repeat constructor; set_solver)))
      as (s' & Hrun & _ & Hkeep & Hrep & _).
    + repeat constructor.
    + exists s'. split; [exact Hrun|]. split.
      * apply (Hrep "deadbeef"). simpl. set_solver.
      * apply Hkeep. simpl. set_solver.
  - destruct (proj2 (load_job_configs_store host_configs_frozen
                (set_config_files [("ab12cd34", CfgJob job_ab12cd34);
                                   ("deadbeef", CfgCorrupt)] store_invalid)
                ltac:(simpl; repeat constructor; set_solver)))
      as (s' & e & Hrun & _).
    + repeat constructor.
    + by exists s', e.
Defined.

(** ** The execution lock and the record source *)

Lemma load_cache_data_without_records (E : env) :
  cache_without_records (env_cache_file E) →
  load_cache_data E = None ∨ load_cache_data E = Some [].
Proof.
  unfold cache_without_records, load_cache_data.
  destruct (env_cache_file E) as [| |c]; auto.
  intros ->. repeat case_match; auto.
Qed.

Lemma run_try_without_records (E : env) (s : state) :
  cache_without_records (env_cache_file E) → run_try E s = (s, Return []).
Proof.
  intros H. unfold run_try.
  by destruct (load_cache_data_without_records E H) as [-> | ->].
Qed.

(** C10.  When the cache is missing, unreadable, or holds an empty record
    list, a run that obtains the lock processes no subscription and leaves
    every subscription file, seen-set, status file, the ledger (on disk
    and in memory) and the history as they were; in particular no
    seen-set is emptied. *)
Theorem run_without_records (E : env) (s : state) :
  env_lock_held E = false →
  cache_without_records (env_cache_file E) →
  ∃ s', run E s = (s', Return [])
    ∧ same_persisted s s' ∧ self_tracker s' = self_tracker s.
Proof.
  intros Hfree Hcache. unfold run, acquire_lock. rewrite Hfree. simpl.
  rewrite (run_try_without_records E _ Hcache). simpl.
  eexists; split; [reflexivity|]. by repeat split.
Qed.

Lemma run_without_records_witness :
  ∃ s', run (host_as_shipped false (cache_of [])) store_123
        = (s', Return [])
    ∧ same_persisted store_123 s' ∧ self_tracker s' = self_tracker store_123.
Proof.
  apply (run_without_records (host_as_shipped false (cache_of []))
           store_123); reflexivity.
Defined.

(** C5.  An invocation that finds the lock held changes no subscription
    file, seen-set, status file, ledger or history (it empties the lock
    file when opening it), and it does not end cleanly: [run] returns with
    the closed file object still in [self.lock_file], and the second
    [release_lock], in the [finally] clause of [main], raises
    [ValueError] out of [main]. *)
Theorem main_lock_held (E : env) (s : state) :
  env_lock_held E = true →
  ∃ s', main E s = (s', Raise (ValueError "I/O operation on closed file"))
    ∧ same_persisted s s'.
Proof.
  intros Hheld. unfold main, run, acquire_lock. rewrite Hheld. simpl.
  eexists; split; [reflexivity|]. by repeat split.
Qed.

Lemma main_lock_held_witness :
  ∃ s', main (host_as_shipped true (cache_of four_tenders)) store_123
        = (s', Raise (ValueError "I/O operation on closed file"))
    ∧ same_persisted store_123 s'.
Proof.
  apply (main_lock_held (host_as_shipped true (cache_of four_tenders))
           store_123); reflexivity.
Defined.

(** ** The dispatch engine *)

Lemma dict_get_dict_set (d : record) (k k' : string) (v : value) :
  dict_get (dict_set d k v) k' = if String.eqb k' k then Some v else dict_get d k'.
Proof.
  induction d as [|[k0 v0] d IH]; simpl.
  - done.
  - destruct (String.eqb_spec k k0) as [->|Hne]; simpl.
    + by destruct (String.eqb_spec k' k0).
    + rewrite IH. destruct (String.eqb_spec k' k0) as [->|]; [|done].
      by destruct (String.eqb_spec k0 k); [congruence|].
Qed.

Lemma set_seen_files_id (s : state) : set_seen_files (seen_files s) s = s.
Proof. by destruct s. Qed.

Lemma set_status_files_id (s : state) : set_status_files (status_files s) s = s.
Proof. by destruct s. Qed.

Lemma set_history_file_id (s : state) : set_history_file (history_file s) s = s.
Proof. by destruct s. Qed.

(** [update_job_status] touches the status files only, and of these the
    file of the job only. *)
Lemma update_job_status_shape (E : env) (id status : string) (kwargs : record)
    (s : state) :
  ∃ m, update_job_status E id status kwargs s = set_status_files m s
       ∧ ∀ id', id' ≠ id → m !! id' = status_files s !! id'.
Proof.
  unfold update_job_status. destruct (env_status_io_fails E id status).
  - exists (status_files s). by rewrite set_status_files_id.
  - eexists; split; [done|]. intros id' Hne. by rewrite lookup_insert_ne.
Qed.

(** What [update_job_status] leaves in the status file of the job when
    the file can be read and written. *)
Lemma update_job_status_lookup (E : env) (id status : string) (kwargs : record)
    (s : state) :
  env_status_io_fails E id status = false →
  status_files (update_job_status E id status kwargs s) !! id
  = Some (dict_update (default [] (status_files s !! id))
            (("status", VStr status) :: ("last_update", VStr (now_iso E)) :: kwargs)).
Proof. intros H. unfold update_job_status; rewrite H; simpl. apply lookup_insert_eq. Qed.

Lemma update_job_status_fails (E : env) (id status : string) (kwargs : record)
    (s : state) :
  env_status_io_fails E id status = true → update_job_status E id status kwargs s = s.
Proof. intros H. unfold update_job_status. by rewrite H. Qed.

(** [log_execution_history] appends at most one line, that of the job. *)
Lemma log_execution_history_shape (E : env) (id : string) (success : bool)
    (n : Z) (error : option string) (s : state) :
  ∃ hs, log_execution_history E id success n error s
        = set_history_file (history_file s ++ hs) s
        ∧ hs = if env_history_write_fails E id then []
               else [mk_history (now_iso E) id success n (env_duration E) error].
Proof.
  unfold log_execution_history. destruct (env_history_write_fails E id).
  - exists []. by rewrite app_nil_r, set_history_file_id.
  - by eexists.
Qed.

(** [save_job_seen_cache] touches the seen-set file of the job only. *)
Lemma save_job_seen_cache_shape (E : env) (id : string) (X : gset string) (s : state) :
  save_job_seen_cache E id X s
  = set_seen_files
      (if env_seen_write_fails E id then seen_files s
       else <[id := SeenIds (sorted (elements X))]> (seen_files s)) s.
Proof.
  unfold save_job_seen_cache. destruct (env_seen_write_fails E id); [|done].
  by rewrite set_seen_files_id.
Qed.

(** The parts of the state [send_email] never writes. *)
Lemma send_email_frame (E : env) (s s' : state) (j : job) (tenders : list record)
    (c : bool) (r : Exc bool) :
  send_email E s j tenders c = (s', r) →
  lock_file s' = lock_file s ∧ config_files s' = config_files s
  ∧ seen_files s' = seen_files s ∧ status_files s' = status_files s
  ∧ history_file s' = history_file s ∧ self_lock_file s' = self_lock_file s.
Proof.
  unfold send_email, record_delivery, save_tracker.
  repeat case_match; intros [= <- <-]; done.
Qed.

(** An exception of the [try] block of [process_job] leaves the seen-sets
    and the ledger as they were. *)
Lemma process_job_try_raise (E : env) (id : string) (j : job) (data : list record)
    (s s1 : state) (e : exn) :
  job_id j = Some id →
  process_job_try E id j data s = (s1, Raise e) →
  s1 = update_job_status E id "running" [("last_run_start", VStr (now_iso E))] s.
Proof.
  intros Hid. unfold process_job_try.
  destruct (filter_data_for_job _ _ _ _ _) as [[fresh c]|e']; [|by intros [= <- <-]].
  destruct fresh as [|t fresh]; [done|].
  destruct (send_email _ _ _ _ _) as [s2 [b|e']] eqn:Hsend; [done|].
  unfold send_email, job_getitem_id in Hsend. rewrite Hid in Hsend. simpl in Hsend.
  repeat case_match; simplify_eq.
Qed.

(** The state after a completed [try] block, in terms of the state the
    notification left. *)
Lemma process_job_try_completes (E : env) (id : string) (j : job)
    (data : list record) (s s' : state) (b : bool) :
  process_job_try E id j data s = (s', Return b) →
  b = true
  ∧ ∃ s2 n c,
      s' = log_execution_history E id true n None
             (update_job_status E id "idle"
                [("last_run_end", VStr (now_iso E));
                 ("last_run_duration", env_duration E);
                 ("last_run_tenders", VInt n);
                 ("last_run_success", VBool true);
                 ("last_run_was_catchup", VBool c)]
                (save_job_seen_cache E id (all_current_ids data) s2))
      ∧ seen_files s2 = seen_files s ∧ history_file s2 = history_file s
      ∧ self_lock_file s2 = self_lock_file s ∧ config_files s2 = config_files s
      ∧ lock_file s2 = lock_file s.
Proof.
  unfold process_job_try.
  destruct (filter_data_for_job _ _ _ _ _) as [[fresh c]|e]; [|done].
  destruct (match fresh with [] => _ | _ => _ end) as [s2 [sent|e]] eqn:Hsend; [|done].
  intros [= <- <-]. split; [done|]. exists s2, (Z.of_nat (length fresh)), c.
  split; [done|].
  destruct (update_job_status_shape E id "running"
              [("last_run_start", VStr (now_iso E))] s) as (m & Hm & _).
  rewrite Hm in Hsend.
  destruct fresh; [by injection Hsend as <- _|].
  by apply send_email_frame in Hsend as (-> & -> & -> & _ & -> & ->).
Qed.

(** Every call of [process_job] on a job with an id returns, with the
    line of the job added to the history when the history can be
    written. *)
Lemma process_job_returns (E : env) (s : state) (j : job) (data : list record) :
  is_Some (job_id j) →
  ∃ s' ok id, process_job E s j data = (s', Return ok)
    ∧ job_id j = Some id
    ∧ ∃ hs, history_file s' = (history_file s ++ hs)%list
            ∧ (env_history_write_fails E id = false →
               h_job_id <$> hs = [id] ∧ h_success <$> hs = [ok]).
Proof.
  intros [id Hid]. unfold process_job, job_getitem_id. rewrite Hid.
  destruct (process_job_try E id j data s) as [s1 [b|e]] eqn:Htry.
  - exists s1, b, id. split; [done|]. split; [done|].
    apply process_job_try_completes in Htry
      as (-> & s2 & n & c & -> & _ & Hh & _).
    destruct (log_execution_history_shape E id true n None
                (update_job_status E id "idle"
                   [("last_run_end", VStr (now_iso E));
                    ("last_run_duration", env_duration E);
                    ("last_run_tenders", VInt n);
                    ("last_run_success", VBool true);
                    ("last_run_was_catchup", VBool c)]
                   (save_job_seen_cache E id (all_current_ids data) s2)))
      as (hs & -> & Hhs).
    destruct (update_job_status_shape E id "idle"
                [("last_run_end", VStr (now_iso E));
                 ("last_run_duration", env_duration E);
                 ("last_run_tenders", VInt n);
                 ("last_run_success", VBool true);
                 ("last_run_was_catchup", VBool c)]
                (save_job_seen_cache E id (all_current_ids data) s2)) as (m & -> & _).
    rewrite save_job_seen_cache_shape. simpl. rewrite Hh.
    exists hs. split; [done|]. intros Hw. rewrite Hw in Hhs. by subst hs.
  - rewrite (process_job_try_raise _ _ _ _ _ _ _ Hid Htry).
    eexists _, false, id. split; [done|]. split; [done|].
    destruct (log_execution_history_shape E id false 0 (Some (str_exn e))
                (update_job_status E id "error"
                   [("last_run_end", VStr (now_iso E));
                    ("last_run_error", VStr (str_exn e));
                    ("last_run_success", VBool false)]
                   (update_job_status E id "running"
                      [("last_run_start", VStr (now_iso E))] s)))
      as (hs & -> & Hhs).
    destruct (update_job_status_shape E id "running"
                [("last_run_start", VStr (now_iso E))] s) as (m1 & -> & _).
    destruct (update_job_status_shape E id "error"
                [("last_run_end", VStr (now_iso E));
                 ("last_run_error", VStr (str_exn e));
                 ("last_run_success", VBool false)]
                (set_status_files m1 s)) as (m2 & -> & _).
    simpl. exists hs. split; [done|]. intros Hw. rewrite Hw in Hhs. by subst hs.
Qed.

(** The handler of [process_job]: an exception of the [try] block ends
    in a [False] result with the seen-sets and the ledger as they
    were, and in the [error] status when the status file can be read and
    written. *)
Lemma process_job_handler (E : env) (data : list record) (s : state) (j : job)
    (id : string) (s1 : state) (e : exn) :
  job_id j = Some id →
  process_job_try E id j data s = (s1, Raise e) →
  ∃ s', process_job E s j data = (s', Return false)
    ∧ seen_files s' = seen_files s
    ∧ self_tracker s' = self_tracker s ∧ tracking_file s' = tracking_file s
    ∧ (env_status_io_fails E id "error" = false →
       ∃ st, status_files s' !! id = Some st
         ∧ dict_get st "status" = Some (VStr "error")
         ∧ dict_get st "last_run_error" = Some (VStr (str_exn e))
         ∧ dict_get st "last_run_success" = Some (VBool false))
    ∧ (env_status_io_fails E id "error" = true →
       status_files s' = status_files s1).
Proof.
  intros Hid Htry.
  unfold process_job, job_getitem_id. rewrite Hid, Htry.
  rewrite (process_job_try_raise _ _ _ _ _ _ _ Hid Htry).
  eexists. split; [reflexivity|].
  destruct (log_execution_history_shape E id false 0 (Some (str_exn e))
              (update_job_status E id "error"
                 [("last_run_end", VStr (now_iso E));
                  ("last_run_error", VStr (str_exn e));
                  ("last_run_success", VBool false)]
                 (update_job_status E id "running"
                    [("last_run_start", VStr (now_iso E))] s)))
    as (hs & -> & _).
  split; [|split; [|split; [|split]]].
  - destruct (update_job_status_shape E id "running"
                [("last_run_start", VStr (now_iso E))] s) as (m1 & -> & _).
    by destruct (update_job_status_shape E id "error"
                   [("last_run_end", VStr (now_iso E));
                    ("last_run_error", VStr (str_exn e));
                    ("last_run_success", VBool false)]
                   (set_status_files m1 s)) as (m2 & -> & _).
  - destruct (update_job_status_shape E id "running"
                [("last_run_start", VStr (now_iso E))] s) as (m1 & -> & _).
    by destruct (update_job_status_shape E id "error"
                   [("last_run_end", VStr (now_iso E));
                    ("last_run_error", VStr (str_exn e));
                    ("last_run_success", VBool false)]
                   (set_status_files m1 s)) as (m2 & -> & _).
  - destruct (update_job_status_shape E id "running"
                [("last_run_start", VStr (now_iso E))] s) as (m1 & -> & _).
    by destruct (update_job_status_shape E id "error"
                   [("last_run_end", VStr (now_iso E));
                    ("last_run_error", VStr (str_exn e));
                    ("last_run_success", VBool false)]
                   (set_status_files m1 s)) as (m2 & -> & _).
  - intros Hw. simpl. rewrite update_job_status_lookup by done.
    eexists; split; [reflexivity|].
    unfold dict_update; simpl. rewrite !dict_get_dict_set. simpl. done.
  - intros Hw. simpl. by rewrite update_job_status_fails.
Qed.

(** The loop over the due jobs reaches each of them. *)
Lemma process_jobs_all (E : env) (data : list record) (due : list job) (s : state) :
  Forall (fun j => is_Some (job_id j)) due →
  ∃ s' oks hs, process_jobs E due data s = (s', Return oks)
    ∧ length oks = length due
    ∧ history_file s' = (history_file s ++ hs)%list
    ∧ ((∀ id, env_history_write_fails E id = false) →
       Some <$> (h_job_id <$> hs) = job_id <$> due ∧ h_success <$> hs = oks).
Proof.
  revert s. induction due as [|j due IH]; intros s Hids; simpl.
  - exists s, [], []. by rewrite app_nil_r.
  - apply Forall_cons in Hids as [Hj Hdue].
    destruct (process_job_returns E s j data Hj)
      as (s1 & ok & id & -> & Hid & h & Hh & Hline).
    destruct (IH s1 Hdue) as (s2 & oks & hs & -> & Hlen & Hhs & Hlines).
    exists s2, (ok :: oks), (h ++ hs)%list. split; [done|].
    split; [simpl; by rewrite Hlen|].
    rewrite Hhs, Hh, <- app_assoc. split; [done|].
    intros Hw. destruct (Hline (Hw id)) as [H1 H2]. destruct (Hlines Hw) as [H3 H4].
    rewrite !fmap_app, H1, H2, H3, H4, Hid. done.
Qed.

Lemma validate_job_config_id (j : job) :
  validate_job_config j = true → is_Some (job_id j).
Proof. unfold validate_job_config. destruct (job_id j); [eauto|done]. Qed.

(** C4 fails as the specification states it: on a host where the status
    file cannot be written, the job fails (here with the [NameError] of
    the module as shipped) and no [error] status is recorded. *)
Lemma process_job_status_unwritable :
  snd (process_job host_status_unwritable store_123 job_ab12cd34 four_tenders)
  = Return false
  ∧ ¬ (∃ st, status_files (fst (process_job host_status_unwritable store_123
                                  job_ab12cd34 four_tenders)) !! "ab12cd34" = Some st
             ∧ dict_get st "status" = Some (VStr "error")).
Proof.
  split; [reflexivity|]. intros (st & Hst & _). vm_compute in Hst. discriminate.
Qed.

(** C4, amended.  When the [try] block of [process_job] raises for a
    subscription, the call returns [False] and the seen-set of the
    subscription, like every other seen-set and the ledger, keeps its
    prior value; the status file of the subscription reads [error] with
    the text of the exception provided it can be read and written (a
    failure there is logged and dropped, and the file stays as it was).
    The loop over the due subscriptions of the tick goes on: each of
    them is processed and answered, and gets its own line in the history
    where the history can be written, whatever the outcome of the
    others. *)
Theorem process_job_failure_contained (E : env) (data : list record) :
  (∀ s j id s1 e,
     job_id j = Some id →
     process_job_try E id j data s = (s1, Raise e) →
     ∃ s', process_job E s j data = (s', Return false)
       ∧ seen_files s' = seen_files s
       ∧ self_tracker s' = self_tracker s ∧ tracking_file s' = tracking_file s
       ∧ (env_status_io_fails E id "error" = false →
          ∃ st, status_files s' !! id = Some st
            ∧ dict_get st "status" = Some (VStr "error")
            ∧ dict_get st "last_run_error" = Some (VStr (str_exn e))
            ∧ dict_get st "last_run_success" = Some (VBool false))
       ∧ (env_status_io_fails E id "error" = true →
          status_files s' = status_files s1))
  ∧ (∀ files due s,
       due_jobs E (valid_jobs_of files) = Return due →
       ∃ s' oks hs, process_jobs E due data s = (s', Return oks)
         ∧ length oks = length due
         ∧ history_file s' = (history_file s ++ hs)%list
         ∧ ((∀ id, env_history_write_fails E id = false) →
            Some <$> (h_job_id <$> hs) = job_id <$> due ∧ h_success <$> hs = oks)).
Proof.
  split.
  - intros s j id s1 e. apply process_job_handler.
  - intros files due s Hdue. apply process_jobs_all.
    apply Forall_forall. intros j Hj.
    apply (due_jobs_subseteq _ _ _ Hdue), elem_of_valid_jobs_of in Hj as [Hv _].
    by apply validate_job_config_id.
Qed.

(** The module as shipped on the second end-to-end scenario: the job
    fails with the [NameError], and a second due job is still processed. *)
Lemma process_job_failure_contained_witness :
  (∃ s', process_job (host_as_shipped false (cache_of four_tenders)) store_123
           job_ab12cd34 four_tenders = (s', Return false)
     ∧ seen_files s' = seen_files store_123
     ∧ ∃ st, status_files s' !! "ab12cd34" = Some st
         ∧ dict_get st "status" = Some (VStr "error")
         ∧ dict_get st "last_run_error"
           = Some (VStr "name 'load_app_config' is not defined")
         ∧ dict_get st "last_run_success" = Some (VBool false))
  ∧ (∃ s' oks hs,
       process_jobs (host_as_shipped false (cache_of four_tenders))
         [job_ab12cd34; job_c0ffee00] four_tenders store_123 = (s', Return oks)
       ∧ length oks = 2%nat
       ∧ history_file s' = (history_file store_123 ++ hs)%list
       ∧ Some <$> (h_job_id <$> hs) = job_id <$> [job_ab12cd34; job_c0ffee00]
       ∧ h_success <$> hs = oks).
Proof.
  split.
  - destruct (proj1 (process_job_failure_contained
                       (host_as_shipped false (cache_of four_tenders)) four_tenders)
                store_123 job_ab12cd34 "ab12cd34"
                (fst (process_job_try (host_as_shipped false (cache_of four_tenders))
                        "ab12cd34" job_ab12cd34 four_tenders store_123))
                (NameError "name 'load_app_config' is not defined")
                eq_refl eq_refl)
      as (s' & Hrun & Hseen & _ & _ & Hst & _).
    exists s'. split; [exact Hrun|]. split; [exact Hseen|]. by apply Hst.
  - destruct (proj2 (process_job_failure_contained
                       (host_as_shipped false (cache_of four_tenders)) four_tenders)
                [("ab12cd34", CfgJob job_ab12cd34); ("c0ffee00", CfgJob job_c0ffee00)]
                [job_ab12cd34; job_c0ffee00] store_123 eq_refl)
      as (s' & oks & hs & Hrun & Hlen & Hh & Hlines).
    exists s', oks, hs. split; [exact Hrun|]. split; [exact Hlen|].
    split; [exact Hh|]. by apply Hlines.
Defined.

(** *** The two tests for "the record has an id"

    The loop of [filter_data_for_job] keeps a record when [str] of its id
    is not empty; lines 317 and 391 keep it when the id itself is truthy.
    The tests agree on ids that are non-empty strings or non-zero
    numbers, and on records without id. *)

Lemma pretty_N_go_ne_empty (x : N) (s : string) : s ≠ "" → pretty_N_go x s ≠ "".
Proof.
  revert s. induction (N.lt_wf_0 x) as [x _ IH]; intros s Hs.
  destruct (decide (x = 0%N)) as [->|Hx]; [by rewrite pretty_N_go_0|].
  rewrite pretty_N_go_step by lia. apply IH; [apply N.div_lt; lia|done].
Qed.

(** [str] of a number is never empty. *)
Lemma pretty_Z_ne_empty (z : Z) : pretty z ≠ "".
Proof.
  assert (∀ p, pretty (N.pos p) ≠ "") as Hpos.
  { intros p. unfold pretty, pretty_N. rewrite decide_False by done.
    rewrite pretty_N_go_step by lia. by apply pretty_N_go_ne_empty. }
  destruct z as [|p|p]; [done|apply Hpos|done].
Qed.

Lemma truthy_id_has_identity (t : record) :
  truthy (dict_get_default t "id" VNone) = true → tender_id t ≠ "".
Proof.
  unfold tender_id, dict_get_default.
  destruct (dict_get t "id") as [[|[]|z|s|[]|[]]|]; simpl; try done.
  - intros _. apply pretty_Z_ne_empty.
  - by destruct (String.eqb_spec s "").
Qed.

Lemma identity_without_truthy_id (t : record) :
  tender_id t ≠ "" → truthy (dict_get_default t "id" VNone) = false →
  dict_get t "id" ∈ [Some VNone; Some (VBool false); Some (VInt 0);
                     Some (VList []); Some (VDict [])].
Proof.
  unfold tender_id, dict_get_default.
  destruct (dict_get t "id") as [[|[]|z|s|[]|[]]|]; simpl; try done;
    try (intros; set_solver).
  - intros _ Hz. apply negb_false_iff, Z.eqb_eq in Hz as ->. set_solver.
  - intros Hs. by destruct (String.eqb_spec s "").
Qed.

(** A record whose id is the number 0 passes the candidate test and is
    listed in neither the seen-set nor the ledger. *)
Example zero_id_record :
  regular_candidate (host (Return default_app_config) false CacheMissing 200)
    job_ab12cd34 ∅ [("id", VInt 0)] = true
  ∧ all_current_ids [[("id", VInt 0)]] = ∅
  ∧ sent_ids [[("id", VInt 0)]] = [].
Proof. repeat split; vm_compute; reflexivity. Qed.

(** *** The seen-set after a completed run *)

Lemma elem_of_sent_ids (tenders : list record) (x : string) :
  x ∈ sent_ids tenders ↔
  ∃ t, t ∈ tenders ∧ truthy (dict_get_default t "id" VNone) = true ∧ x = tender_id t.
Proof.
  unfold sent_ids. rewrite list_elem_of_fmap. split.
  - intros (t & -> & Ht). apply list_elem_of_In, filter_In in Ht as [Ht Hid].
    exists t. by rewrite list_elem_of_In.
  - intros (t & Ht & Hid & ->). exists t. split; [done|].
    apply list_elem_of_In, filter_In. by rewrite <- list_elem_of_In.
Qed.

(** [process_job] answers [True] exactly when its [try] block completes. *)
Lemma process_job_true (E : env) (s s' : state) (j : job) (data : list record) :
  process_job E s j data = (s', Return true) ↔
  ∃ id, job_id j = Some id ∧ process_job_try E id j data s = (s', Return true).
Proof.
  unfold process_job, job_getitem_id. destruct (job_id j) as [id|]; [|naive_solver].
  destruct (process_job_try E id j data s) as [s1 [b|e]] eqn:Htry.
  - split.
    + intros Heq. exists id. split; [done|]. congruence.
    + intros (id' & Hid & Heq). congruence.
  - split; [done|]. intros (id' & Hid & Heq). congruence.
Qed.

(** The seen-set files after a completed [try] block. *)
Lemma process_job_seen_files (E : env) (s s' : state) (j : job) (data : list record) :
  process_job E s j data = (s', Return true) →
  ∃ id, job_id j = Some id
    ∧ seen_files s'
      = if env_seen_write_fails E id then seen_files s
        else <[id := SeenIds (sorted (elements (all_current_ids data)))]> (seen_files s).
Proof.
  intros (id & Hid & Htry)%process_job_true. exists id. split; [done|].
  apply process_job_try_completes in Htry as (_ & s2 & n & c & -> & Hseen & _).
  destruct (log_execution_history_shape E id true n None
              (update_job_status E id "idle"
                 [("last_run_end", VStr (now_iso E));
                  ("last_run_duration", env_duration E);
                  ("last_run_tenders", VInt n);
                  ("last_run_success", VBool true);
                  ("last_run_was_catchup", VBool c)]
                 (save_job_seen_cache E id (all_current_ids data) s2)))
    as (hs & -> & _).
  destruct (update_job_status_shape E id "idle"
              [("last_run_end", VStr (now_iso E));
               ("last_run_duration", env_duration E);
               ("last_run_tenders", VInt n);
               ("last_run_success", VBool true);
               ("last_run_was_catchup", VBool c)]
              (save_job_seen_cache E id (all_current_ids data) s2)) as (m & -> & _).
  rewrite save_job_seen_cache_shape. simpl. by rewrite Hseen.
Qed.

(** C2 fails as the specification states it: on a host where the
    seen-set file cannot be written, the processing completes (the failed
    write is logged and dropped) and the seen-set still lacks the
    identity of tender 4, which is in the record set. *)
Lemma process_job_seen_unwritable :
  snd (process_job host_seen_unwritable store_123 job_ab12cd34 four_tenders)
  = Return true
  ∧ active_tender 4 ∈ four_tenders
  ∧ tender_id (active_tender 4) = "4"
  ∧ "4" ∉ load_job_seen_cache
            (fst (process_job host_seen_unwritable store_123 job_ab12cd34 four_tenders))
            "ab12cd34".
Proof.
  split; [vm_compute; reflexivity|]. split; [set_solver|]. split; [reflexivity|].
  assert (load_job_seen_cache
            (fst (process_job host_seen_unwritable store_123 job_ab12cd34 four_tenders))
            "ab12cd34" = {["1"; "2"; "3"]}) as -> by (vm_compute; reflexivity).
  set_solver.
Qed.

(** C2, amended.  When the processing of a subscription completes (its
    [try] block raises nothing, so [process_job] answers [True]) and the
    seen-set file of the subscription can be written, that file is
    rewritten, whatever was sent and whether or not the notification went
    out: it then holds the identity of every record of this tick that
    carries a truthy id, be the record a candidate or not, still open or
    not, of a matching category or not, and it holds nothing but
    identities of records of this tick.  When the write fails, the
    failure is logged and dropped and every seen-set stays as it was.
    The seen-sets of the other subscriptions are left alone. *)
Theorem process_job_rewrites_seen (E : env) (s s' : state) (j : job)
    (data : list record) :
  process_job E s j data = (s', Return true) →
  ∃ id, job_id j = Some id
    ∧ (env_seen_write_fails E id = false →
       (∃ ids, seen_files s' !! id = Some (SeenIds ids))
       ∧ (∀ t, t ∈ data → truthy (dict_get_default t "id" VNone) = true →
               tender_id t ∈ load_job_seen_cache s' id)
       ∧ (∀ x, x ∈ load_job_seen_cache s' id →
               ∃ t, t ∈ data ∧ x = tender_id t ∧ x ≠ ""))
    ∧ (env_seen_write_fails E id = true → seen_files s' = seen_files s)
    ∧ (∀ id', id' ≠ id → seen_files s' !! id' = seen_files s !! id').
Proof.
  intros (id & Hid & Hseen)%process_job_seen_files. exists id. split; [done|].
  split; [|split].
  - intros Hw. rewrite Hw in Hseen.
    assert (load_job_seen_cache s' id = all_current_ids data) as Hload.
    { unfold load_job_seen_cache. rewrite Hseen, lookup_insert_eq.
      apply list_to_set_sorted_elements. }
    split; [|split].
    + rewrite Hseen, lookup_insert_eq. eauto.
    + intros t Ht Hid'. rewrite Hload. unfold all_current_ids.
      apply elem_of_list_to_set, elem_of_sent_ids. eauto.
    + intros x. rewrite Hload. unfold all_current_ids.
      rewrite elem_of_list_to_set, elem_of_sent_ids. intros (t & Ht & Hid' & ->).
      exists t. split; [done|]. split; [done|]. by apply truthy_id_has_identity.
  - intros Hw. by rewrite Hw in Hseen.
  - intros id' Hne. rewrite Hseen. destruct (env_seen_write_fails E id); [done|].
    by rewrite lookup_insert_ne.
Qed.

(** A run whose notification the sink refuses (status 503), over tenders
    of which one is closed and one of another category: the processing
    completes and the seen-set holds the identities of all six. *)
Lemma process_job_rewrites_seen_witness :
  ∃ s', process_job (host (Return default_app_config) false (cache_of mixed_tenders) 503)
          store_123 job_goods mixed_tenders = (s', Return true)
    ∧ (∀ t, t ∈ mixed_tenders → tender_id t ∈ load_job_seen_cache s' "ab12cd34")
    ∧ self_tracker s' = ledger_123.
Proof.
  exists (fst (process_job
                 (host (Return default_app_config) false (cache_of mixed_tenders) 503)
                 store_123 job_goods mixed_tenders)).
  assert (process_job
            (host (Return default_app_config) false (cache_of mixed_tenders) 503)
            store_123 job_goods mixed_tenders
          = (fst (process_job
                    (host (Return default_app_config) false (cache_of mixed_tenders) 503)
                    store_123 job_goods mixed_tenders), Return true)) as Hrun
    by (vm_compute; reflexivity).
  split; [exact Hrun|].
  destruct (process_job_rewrites_seen _ _ _ _ _ Hrun) as (id & Hid & Hok & _).
  injection Hid as <-. destruct (Hok eq_refl) as (_ & Hall & _).
  split; [|vm_compute; reflexivity].
  intros t Ht. apply Hall; [done|].
  repeat (apply elem_of_cons in Ht as [->|Ht]; [reflexivity|]). by apply elem_of_nil in Ht.
Defined.

Example all_current_ids_mixed :
  all_current_ids mixed_tenders = {["1"; "2"; "3"; "4"; "5"; "6"]}.
Proof. vm_compute. reflexivity. Qed.

(** *** The ledger after a delivered notification *)

Lemma get_sent_tenders_fold_mark (now : string) (ids : list value)
    (rcpts : list string) (tr : tracker_data) (email : string) :
  get_sent_tenders
    (fold_left (fun t e => mark_tenders_sent now t e ids) rcpts tr) email
  = if decide (email ∈ rcpts)
    then get_sent_tenders tr email ∪ list_to_set (py_str <$> ids)
    else get_sent_tenders tr email.
Proof.
  revert tr. induction rcpts as [|r rcpts IH]; intros tr; cbn [fold_left].
  - case_decide; [set_solver|done].
  - rewrite IH, get_sent_tenders_mark.
    repeat case_decide; set_solver.
Qed.

Lemma fmap_py_str_VStr (l : list string) : py_str <$> (VStr <$> l) = l.
Proof. induction l as [|x l IH]; [done|]. rewrite !fmap_cons. by rewrite IH. Qed.

(** The ledger in memory after [record_delivery]. *)
Lemma get_sent_tenders_record_delivery (E : env) (rcpts : list string)
    (tenders : list record) (s : state) (email : string) :
  get_sent_tenders (self_tracker (record_delivery E rcpts tenders s)) email
  = if decide (email ∈ rcpts)
    then get_sent_tenders (self_tracker s) email ∪ list_to_set (sent_ids tenders)
    else get_sent_tenders (self_tracker s) email.
Proof.
  assert (∀ s0, get_sent_tenders (self_tracker (save_tracker E s0)) email
                = get_sent_tenders (self_tracker s0) email) as Hsave.
  { intros s0. unfold save_tracker. by destruct (env_tracking_write_fails E). }
  unfold record_delivery. rewrite Hsave. simpl.
  rewrite get_sent_tenders_fold_mark. by rewrite fmap_py_str_VStr.
Qed.

(** C3, where the code parts from the specification.  When [send_email]
    answers [True] (the sink returned 200), the ledger entry of every
    address in the recipients of the subscription, new or long-standing,
    is the union of what it held and the identities of the candidates
    whose id is truthy (line 317); the entries of other addresses are
    unchanged, and the ledger is persisted when its file can be written.
    A delivered candidate whose id is not truthy (0, null, false), though
    it has an identity for the candidate loop, enters no entry that did
    not hold that identity already. *)
Theorem send_email_marks_all_recipients (E : env) (s s' : state) (j : job)
    (tenders : list record) (is_catch_up : bool) :
  send_email E s j tenders is_catch_up = (s', Return true) →
  ∃ rcpts, job_recipients j = Some rcpts
    ∧ (∀ email, email ∈ rcpts →
         get_sent_tenders (self_tracker s') email
         = get_sent_tenders (self_tracker s) email ∪ list_to_set (sent_ids tenders))
    ∧ (∀ email t, email ∈ rcpts → t ∈ tenders →
         truthy (dict_get_default t "id" VNone) = true →
         tender_id t ∈ get_sent_tenders (self_tracker s') email)
    ∧ (∀ email t, email ∈ rcpts → t ∈ tenders →
         tender_id t ∉ sent_ids tenders →
         tender_id t ∉ get_sent_tenders (self_tracker s) email →
         tender_id t ∉ get_sent_tenders (self_tracker s') email)
    ∧ (∀ email, email ∉ rcpts →
         get_sent_tenders (self_tracker s') email
         = get_sent_tenders (self_tracker s) email)
    ∧ (env_tracking_write_fails E = false →
       tracking_file s' = TrackingData (self_tracker s')).
Proof.
  unfold send_email.
  destruct (String.eqb _ ""); [by destruct (job_getitem_id j)|].
  destruct (send_email_try E j tenders is_catch_up) as [[code rcpts]|e] eqn:Htry;
    [|by destruct (job_getitem_id j)].
  destruct (code =? 200); [|done]. intros [= <-].
  assert (job_recipients j = Some rcpts) as Hr.
  { unfold send_email_try in Htry.
    destruct (job_getitem_id j); [simpl in Htry|done].
    destruct (format_email_body _ _ _ _); [simpl in Htry|done].
    destruct (job_recipients j); [simpl in Htry|done].
    destruct (env_post _ _); [simpl in Htry|done]. congruence. }
  exists rcpts. split; [done|].
  pose proof (get_sent_tenders_record_delivery E rcpts tenders s) as Hsent.
  split; [|split; [|split; [|split]]].
  - intros email Hin. rewrite Hsent. by rewrite decide_True.
  - intros email t Hin Ht Hid. rewrite Hsent. rewrite decide_True by done.
    apply elem_of_union_r, elem_of_list_to_set, elem_of_sent_ids. eauto.
  - intros email t Hin Ht Hnot Hold. rewrite Hsent. rewrite decide_True by done.
    rewrite elem_of_union, elem_of_list_to_set. tauto.
  - intros email Hin. rewrite Hsent. by rewrite decide_False.
  - intros Hw. unfold record_delivery, save_tracker. by rewrite Hw.
Qed.

(** Tender 0 is a candidate of the regular run and goes out to [a@x.com]
    with status 200; the entry of [a@x.com] does not gain its identity. *)
Lemma send_email_marks_all_recipients_witness :
  regular_candidate (host (Return default_app_config) false (cache_of [tender_zero]) 200)
    job_ab12cd34 {["1"; "2"; "3"]} tender_zero = true
  ∧ tender_id tender_zero = "0"
  ∧ ∃ s', send_email (host (Return default_app_config) false (cache_of [tender_zero]) 200)
            store_123 job_ab12cd34 [tender_zero] false = (s', Return true)
      ∧ "0" ∉ get_sent_tenders (self_tracker s') "a@x.com".
Proof.
  split; [vm_compute; reflexivity|]. split; [reflexivity|].
  exists (fst (send_email
                 (host (Return default_app_config) false (cache_of [tender_zero]) 200)
                 store_123 job_ab12cd34 [tender_zero] false)).
  assert (send_email
            (host (Return default_app_config) false (cache_of [tender_zero]) 200)
            store_123 job_ab12cd34 [tender_zero] false
          = (fst (send_email
                    (host (Return default_app_config) false (cache_of [tender_zero]) 200)
                    store_123 job_ab12cd34 [tender_zero] false), Return true)) as Hrun
    by (vm_compute; reflexivity).
  split; [exact Hrun|].
  destruct (send_email_marks_all_recipients _ _ _ _ _ _ Hrun)
    as (rcpts & Hr & _ & _ & Hmiss & _).
  injection Hr as <-.
  apply (Hmiss "a@x.com" tender_zero); [set_solver|set_solver| |].
  - assert (sent_ids [tender_zero] = []) as -> by reflexivity. set_solver.
  - assert (get_sent_tenders (self_tracker store_123) "a@x.com" = {["1"; "2"; "3"]})
      as -> by (vm_compute; reflexivity).
    change (tender_id tender_zero) with "0". set_solver.
Defined.

(** Tenders with truthy ids do reach every entry: 1 to 4 sent to
    [a@x.com], who had received 1 to 3, and to [b@x.com], who is new. *)
Example ledger_after_delivery :
  get_sent_tenders ledger_123 "a@x.com" ∪ list_to_set (sent_ids four_tenders)
  = {["1"; "2"; "3"; "4"]}
  ∧ get_sent_tenders ledger_123 "b@x.com" ∪ list_to_set (sent_ids four_tenders)
    = {["1"; "2"; "3"; "4"]}.
Proof. split; vm_compute; reflexivity. Qed.

(** *** The candidates of a regular run *)

Lemma is_tender_active_total (fromisoformat : string → option datetime)
    (strptime : string → string → option datetime) (tender : record) (ref : datetime) :
  match dict_get_default tender "close_at" (VStr "") with
  | VList _ | VDict _ => False
  | _ => True
  end →
  ∃ b, is_tender_active fromisoformat strptime tender ref = Return b.
Proof.
  unfold is_tender_active, is_tender_active_try.
  destruct (dict_get_default tender "close_at" (VStr "")) as [|[]|z|s| |];
    try done; intros _; simpl; eauto.
  - destruct (negb (z =? 0)); simpl; eauto.
  - destruct (negb (String.eqb s "")); simpl; [|eauto].
    destruct (contains "T" s); simpl.
    + destruct (fromisoformat (replace_Z s)) as [c|]; simpl; [|eauto].
      unfold datetime_ge. destruct (dt_utcoffset c), (dt_utcoffset ref); eauto.
    + destruct (contains " " s); simpl;
        (match goal with |- context [strptime s ?f] => destruct (strptime s f) as [c|] end);
        simpl; eauto;
        unfold datetime_ge; destruct (dt_utcoffset c), (dt_utcoffset ref); eauto.
Qed.

Section Candidates.
Variable E : env.
Variable j : job.
Variable seen_ids : gset string.

(** When the loop returns, its first list is the records passing the
    candidate test, in the order of the record set. *)
Lemma filter_loop_regular (data : list record) (r : list record * list record) :
  filter_loop E (default [] (job_classes j)) seen_ids data = Return r →
  fst r = List.filter (regular_candidate E j seen_ids) data.
Proof.
  revert r. induction data as [|t data IH]; intros r; simpl.
  - by intros [= <-].
  - unfold regular_candidate at 1.
    destruct (String.eqb (tender_id t) ""); simpl; [apply IH|].
    destruct (category_matches _ _) as [[]|]; simpl; [|apply IH|done].
    destruct (is_tender_active _ _ _ _) as [[]|]; simpl; [| |done].
    + destruct (filter_loop _ _ _ data) as [r0|]; simpl; [|done].
      intros [= <-]. simpl. rewrite (IH r0 eq_refl).
      by destruct (bool_decide _).
    + destruct (filter_loop _ _ _ data) as [r0|]; simpl; [|done].
      intros [= <-]. by apply IH.
Qed.

(** On plain records the loop returns. *)
Lemma filter_loop_total (data : list record) :
  Forall plain_tender data →
  ∃ r, filter_loop E (default [] (job_classes j)) seen_ids data = Return r.
Proof.
  induction 1 as [|t data [[c Hc] Hclose] _ [r IH]]; simpl; [eauto|].
  destruct (String.eqb (tender_id t) ""); [eauto|].
  rewrite Hc, IH. unfold category_matches.
  destruct (is_tender_active_total (env_fromisoformat E) (env_strptime E) t (now E) Hclose)
    as [b ->].
  destruct (default [] (job_classes j)); simpl; [by destruct b; eauto|].
  destruct (_ || _); simpl; [by destruct b; eauto|eauto].
Qed.

(** With [load_app_config] bound to a function returning [config], a
    subscription with no new recipient, or any subscription outside the
    [all_active] mode, gets as candidates exactly the records that have an
    identity, match the class filter, are open and were not seen; the
    ledger plays no part beyond the test for new recipients. *)
Lemma filter_data_for_job_regular (tr : tracker_data) (data : list record)
    (config : record) :
  env_load_app_config E = Return config →
  existsb (is_new_recipient tr) (default [] (job_recipients j)) = false
  ∨ all_active_mode config = false →
  Forall plain_tender data →
  filter_data_for_job E tr data j seen_ids
  = Return (List.filter (regular_candidate E j seen_ids) data, false).
Proof.
  intros Hcfg Hmode Hplain. unfold filter_data_for_job. rewrite Hcfg. simpl.
  destruct (filter_loop_total data Hplain) as [r Hr]. rewrite Hr. simpl.
  rewrite (filter_loop_regular _ _ Hr).
  fold (all_active_mode config).
  destruct Hmode as [-> | ->]; [done|]. by rewrite andb_false_r.
Qed.

(** The call of [load_app_config] fails before the loop is entered. *)
Lemma filter_data_for_job_NameError (tr : tracker_data) (data : list record) :
  env_load_app_config E = load_app_config_unbound →
  filter_data_for_job E tr data j seen_ids
  = Raise (NameError "name 'load_app_config' is not defined").
Proof. intros H. unfold filter_data_for_job. by rewrite H. Qed.

(** C1, where the code parts from the specification.  [job_dispatcher.py] calls
    [load_app_config()] at line 217 and binds no such name, so in the
    module as shipped [filter_data_for_job] raises [NameError] for every
    subscription and record set, and computes no candidate set.  Once the
    name is bound to a function returning a configuration, the regular
    run (no new recipient, or a mode other than [all_active]) yields
    exactly the records the specification describes, in the order of the record
    set, without consulting the ledger any further. *)
Theorem filter_data_for_job_candidates (tr : tracker_data) (data : list record) :
  (env_load_app_config E = load_app_config_unbound →
   filter_data_for_job E tr data j seen_ids
   = Raise (NameError "name 'load_app_config' is not defined"))
  ∧ (∀ config,
       env_load_app_config E = Return config →
       existsb (is_new_recipient tr) (default [] (job_recipients j)) = false
       ∨ all_active_mode config = false →
       Forall plain_tender data →
       filter_data_for_job E tr data j seen_ids
       = Return (List.filter (regular_candidate E j seen_ids) data, false)
       ∧ ∀ t, t ∈ List.filter (regular_candidate E j seen_ids) data ↔
              t ∈ data ∧ tender_id t ≠ ""
              ∧ category_matches (default [] (job_classes j)) (get_tender_category t)
                = Return true
              ∧ is_tender_active (env_fromisoformat E) (env_strptime E) t (now E)
                = Return true
              ∧ tender_id t ∉ seen_ids).
Proof.
  split; [apply filter_data_for_job_NameError|].
  intros config Hcfg Hmode Hplain.
  split; [by apply (filter_data_for_job_regular tr data config)|].
  intros t. rewrite list_elem_of_In, filter_In, <- list_elem_of_In.
  unfold regular_candidate. rewrite !andb_true_iff, !negb_true_iff.
  rewrite bool_decide_eq_false.
  destruct (String.eqb_spec (tender_id t) "") as [->|Hne];
    destruct (category_matches _ _) as [[]|];
    destruct (is_tender_active _ _ _ _) as [[]|]; naive_solver.
Qed.

End Candidates.

(** The second end-to-end scenario: a [NameError] in the module as
    shipped, the records passing the candidate test once the name is
    bound. *)
Lemma filter_data_for_job_candidates_witness :
  is_new_recipient ledger_123 "a@x.com" = false
  ∧ filter_data_for_job (host_as_shipped false (cache_of four_tenders)) ledger_123
      four_tenders job_ab12cd34 {["1"; "2"; "3"]}
    = Raise (NameError "name 'load_app_config' is not defined")
  ∧ filter_data_for_job
      (host (Return default_app_config) false (cache_of four_tenders) 200) ledger_123
      four_tenders job_ab12cd34 {["1"; "2"; "3"]}
    = Return (List.filter
                (regular_candidate
                   (host (Return default_app_config) false (cache_of four_tenders) 200)
                   job_ab12cd34 {["1"; "2"; "3"]})
                four_tenders, false).
Proof.
  split; [reflexivity|]. split.
  - apply (proj1 (filter_data_for_job_candidates
                    (host_as_shipped false (cache_of four_tenders))
                    job_ab12cd34 {["1"; "2"; "3"]} ledger_123 four_tenders)).
    reflexivity.
  - apply (proj2 (filter_data_for_job_candidates
                    (host (Return default_app_config) false (cache_of four_tenders) 200)
                    job_ab12cd34 {["1"; "2"; "3"]} ledger_123 four_tenders)
             default_app_config).
    + reflexivity.
    + left. reflexivity.
    + repeat constructor; vm_compute; eauto.
Defined.

(** In that scenario the candidates are tender 4 alone. *)
Example filter_data_for_job_scenario :
  filter_data_for_job (host (Return default_app_config) false (cache_of four_tenders) 200)
    ledger_123 four_tenders job_ab12cd34 {["1"; "2"; "3"]}
  = Return ([active_tender 4], false).
Proof. vm_compute. reflexivity. Qed.

(** In the module as shipped no job completes: each ends in the [error]
    status (when the status file can be written), with its seen-set and
    the ledger untouched. *)
Lemma process_job_as_shipped (E : env) (s : state) (j : job) (id : string)
    (data : list record) :
  env_load_app_config E = load_app_config_unbound →
  job_id j = Some id →
  ∃ s', process_job E s j data = (s', Return false)
    ∧ seen_files s' = seen_files s ∧ self_tracker s' = self_tracker s
    ∧ (env_status_io_fails E id "error" = false →
       ∃ st, status_files s' !! id = Some st
         ∧ dict_get st "status" = Some (VStr "error")).
Proof.
  intros Hcfg Hid.
  assert (∃ s1, process_job_try E id j data s
                = (s1, Raise (NameError "name 'load_app_config' is not defined")))
    as [s1 Htry].
  { unfold process_job_try, filter_data_for_job. rewrite Hcfg. simpl. eauto. }
  destruct (process_job_handler E data s j id s1 _ Hid Htry)
    as (s' & Hrun & Hseen & Htr & _ & Hst & _).
  exists s'. repeat split; try done.
  intros Hw. destruct (Hst Hw) as (st & ? & ? & _). eauto.
Qed.

(** In the module as shipped no notification is posted either:
    [format_email_body] raises the same [NameError] inside the [try]
    block of [send_email], which answers [False]. *)
Lemma send_email_as_shipped (E : env) (s : state) (j : job) (tenders : list record)
    (is_catch_up : bool) :
  env_load_app_config E = load_app_config_unbound →
  is_Some (job_id j) →
  send_email E s j tenders is_catch_up = (s, Return false).
Proof.
  intros Hcfg [id Hid]. unfold send_email, send_email_try, format_email_body,
    job_getitem_id.
  rewrite Hcfg, Hid. simpl. by destruct (String.eqb _ "").
Qed.

(** *** The second release of the lock *)

Lemma update_job_status_self_lock_file (E : env) (id status : string)
    (kwargs : record) (s : state) :
  self_lock_file (update_job_status E id status kwargs s) = self_lock_file s.
Proof. by destruct (update_job_status_shape E id status kwargs s) as (m & -> & _). Qed.

Lemma log_execution_history_self_lock_file (E : env) (id : string) (success : bool)
    (n : Z) (error : option string) (s : state) :
  self_lock_file (log_execution_history E id success n error s) = self_lock_file s.
Proof.
  by destruct (log_execution_history_shape E id success n error s) as (hs & -> & _).
Qed.

Lemma process_job_self_lock_file (E : env) (s : state) (j : job) (data : list record) :
  self_lock_file (fst (process_job E s j data)) = self_lock_file s.
Proof.
  unfold process_job, job_getitem_id. destruct (job_id j) as [id|] eqn:Hid; [|done].
  destruct (process_job_try E id j data s) as [s1 [b|e]] eqn:Htry.
  - apply process_job_try_completes in Htry
      as (_ & s2 & n & c & -> & _ & _ & Hl & _).
    simpl. rewrite log_execution_history_self_lock_file,
      update_job_status_self_lock_file, save_job_seen_cache_shape. by simpl.
  - apply process_job_try_raise in Htry as ->; [|done].
    simpl. by rewrite log_execution_history_self_lock_file,
      !update_job_status_self_lock_file.
Qed.

Lemma process_jobs_self_lock_file (E : env) (due : list job) (data : list record)
    (s : state) :
  self_lock_file (fst (process_jobs E due data s)) = self_lock_file s.
Proof.
  revert s. induction due as [|j due IH]; intros s; simpl; [done|].
  pose proof (process_job_self_lock_file E s j data) as Hj.
  destruct (process_job E s j data) as [s1 [ok|]]; [|done].
  specialize (IH s1). destruct (process_jobs E due data s1) as [s2 []]; simpl in *;
    congruence.
Qed.

Lemma load_job_configs_self_lock_file (E : env) (s : state) :
  self_lock_file (fst (load_job_configs E s)) = self_lock_file s.
Proof.
  unfold load_job_configs.
  by destruct (load_job_configs_loop_frame E (config_files s) s)
    as [cf ->].
Qed.

Lemma cleanup_old_files_self_lock_file (E : env) (s : state) :
  self_lock_file (cleanup_old_files E s) = self_lock_file s.
Proof.
  unfold cleanup_old_files.
  pose proof (load_job_configs_self_lock_file E s) as H.
  destruct (load_job_configs E s) as [s1 [jobs|e]]; simpl in H; [|done].
  case_bool_decide; [done|].
  unfold save_tracker. by destruct (env_tracking_write_fails E).
Qed.

Lemma run_try_self_lock_file (E : env) (s : state) :
  self_lock_file (fst (run_try E s)) = self_lock_file s.
Proof.
  unfold run_try. destruct (load_cache_data E) as [[|t data]|]; [done| |done].
  pose proof (load_job_configs_self_lock_file E s) as H1.
  destruct (load_job_configs E s) as [s1 [[|j jobs]|e]]; [done| |done].
  destruct (due_jobs E (j :: jobs)) as [[|d due]|]; [done| |done].
  pose proof (process_jobs_self_lock_file E (d :: due) (t :: data) s1) as H2.
  destruct (process_jobs E (d :: due) (t :: data) s1) as [s2 []]; simpl in *;
    [|congruence].
  case_match; [rewrite cleanup_old_files_self_lock_file|]; congruence.
Qed.

(** The slip behind C5 ends every invocation that obtained the lock as
    well: [run] releases the lock in its [finally] clause, and [main]
    releases it once more on the closed file object. *)
Lemma main_lock_free (E : env) (s : state) :
  env_lock_held E = false →
  snd (main E s) = Raise (ValueError "I/O operation on closed file").
Proof.
  intros Hfree. unfold main, run, acquire_lock. rewrite Hfree. simpl.
  match goal with |- context [run_try E ?s0] =>
    pose proof (run_try_self_lock_file E s0) as H;
    destruct (run_try E s0) as [s1 r] end.
  cbn in H. unfold release_lock at 1. rewrite H. reflexivity.
Qed.

(** ** End-to-end runs *)

(** The first end-to-end scenario with [load_app_config] bound: the three
    tenders go out, the ledger and the seen-set gain their identities,
    and the status is [idle] with three tenders. *)
Example main_first_scenario :
  let E := host (Return default_app_config) false (cache_of three_tenders) 200 in
  let s' := fst (run E (JobDispatcher_init store_fresh)) in
  snd (run E (JobDispatcher_init store_fresh)) = Return [true]
  ∧ load_job_seen_cache s' "ab12cd34" = {["1"; "2"; "3"]}
  ∧ get_sent_tenders (self_tracker s') "a@x.com" = {["1"; "2"; "3"]}
  ∧ tracking_file s' = TrackingData (self_tracker s')
  ∧ (status_files s' !! "ab12cd34" ≫= fun st => dict_get st "status")
    = Some (VStr "idle")
  ∧ (status_files s' !! "ab12cd34" ≫= fun st => dict_get st "last_run_tenders")
    = Some (VInt 3).
Proof. repeat split; vm_compute; reflexivity. Qed.

(** The same scenario in the module as shipped: the job fails, nothing
    goes out, the seen-set file is not written, and [main] ends in the
    [ValueError] of the second release. *)
Example main_first_scenario_as_shipped :
  let E := host_as_shipped false (cache_of three_tenders) in
  let s' := fst (main E store_fresh) in
  snd (run E (JobDispatcher_init store_fresh)) = Return [false]
  ∧ snd (main E store_fresh) = Raise (ValueError "I/O operation on closed file")
  ∧ seen_files s' = ∅
  ∧ tracking_file s' = TrackingMissing
  ∧ (status_files s' !! "ab12cd34" ≫= fun st => dict_get st "status")
    = Some (VStr "error")
  ∧ (status_files s' !! "ab12cd34" ≫= fun st => dict_get st "last_run_error")
    = Some (VStr "name 'load_app_config' is not defined").
Proof. repeat split; vm_compute; reflexivity. Qed.

(** * Further properties *)

(** ** The delivery ledger, continued *)










(** ** The record classifier, continued *)



Section FilterActive.
Variable fromisoformat : string → option datetime.
Variable strptime : string → string → option datetime.
Variable ref : datetime.





End FilterActive.


(** *** Grouping by category *)

Lemma py_key_eq_sym (a b : value) : py_key_eq a b = py_key_eq b a.
Proof.
  destruct a as [|x|x|s| |], b as [|y|y|t| |]; simpl; try done.
  - by destruct x, y.
  - apply Z.eqb_sym.
  - apply String.eqb_sym.
Qed.








